(** * ezdxf: cubic Bezier curves and the [__geo_interface__] proxy

    A shallow embedding of [src/ezdxf/math/_bezier4p.py] and
    [src/ezdxf/addons/geo.py].

    The numbers of the modules [Bezier] and [Geo] are exact rationals
    ([Q]): Python's [float] arithmetic is idealised there to the real-valued
    arithmetic the documentation speaks of, and a statement about these
    modules is a statement about the algorithms in exact arithmetic, not
    about binary rounding.  The module [Double] repeats the numerical
    functions over binary64 floating-point numbers, the arithmetic of
    Python's [float], for the statements that depend on rounding.
    Exceptions are values of an error monad; generators are the list of the
    items they yield together with the way they ended. *)

From Stdlib Require Import QArith Qabs Qminmax Qround ZArith List String Bool Lia Lqa.
From Stdlib Require Import Floats.
Import ListNotations.

Set Warnings "-register-all".
Local Open Scope Q_scope.

(** ** Vectors *)

(** Modelled from the spec: the classes [Vec2], [Vec3] and [Vector] of
    [ezdxf.math] are not among the sources.  "An ordered 2- or 3-component
    real-valued coordinate; immutable; arithmetic (add/scale/distance/
    linear-interpolate) is value-based".  A 2D vector is a vector whose
    third component is 0. *)
Record Vec : Type := mkVec { vx : Q; vy : Q; vz : Q }.

Definition vec2 (x y : Q) : Vec := mkVec x y 0.

Definition vadd (a b : Vec) : Vec :=
  mkVec (vx a + vx b) (vy a + vy b) (vz a + vz b).

Definition vsub (a b : Vec) : Vec :=
  mkVec (vx a - vx b) (vy a - vy b) (vz a - vz b).

Definition vscale (a : Vec) (k : Q) : Vec :=
  mkVec (vx a * k) (vy a * k) (vz a * k).

(** [a.lerp(b, factor)], [factor] defaults to 0.5. *)
Definition lerp (a b : Vec) (factor : Q) : Vec :=
  vadd a (vscale (vsub b a) factor).

(** Square of [a.distance(b)]. *)
Definition distance2 (a b : Vec) : Q :=
  let d := vsub b a in vx d * vx d + vy d * vy d + vz d * vz d.

Definition Qltb (a b : Q) : bool := negb (Qle_bool b a).

(** [a.distance(b) < d], decided without the square root: a distance is
    never below a [d <= 0], and for [d > 0] the squares compare alike. *)
Definition distance_lt (a b : Vec) (d : Q) : bool :=
  Qltb 0 d && Qltb (distance2 a b) (d * d).

(** Value equality of vectors: componentwise equality of numbers. *)
Definition vec_eq (a b : Vec) : Prop :=
  vx a == vx b /\ vy a == vy b /\ vz a == vz b.

Definition vec_eqb (a b : Vec) : bool :=
  Qeq_bool (vx a) (vx b) && Qeq_bool (vy a) (vy b) && Qeq_bool (vz a) (vz b).

(** [math.isclose(a, b, rel_tol=1e-09, abs_tol=abs_tol)] of the Python
    standard library. *)
Definition rel_tol : Q := 1 # 1000000000.

Definition isclose (a b abs_tol : Q) : bool :=
  Qle_bool (Qabs (a - b))
           (Qmax (rel_tol * Qmax (Qabs a) (Qabs b)) abs_tol).

(** Modelled from the spec: [Vector.isclose], "first ≈ last within
    tolerance", componentwise [math.isclose] with [abs_tol=1e-12]. *)
Definition vec_abs_tol : Q := 1 # 1000000000000.

Definition vec_isclose (a b : Vec) : bool :=
  isclose (vx a) (vx b) vec_abs_tol &&
  isclose (vy a) (vy b) vec_abs_tol &&
  isclose (vz a) (vz b) vec_abs_tol.

(** ** Python values *)

(** The dynamically typed data of [geo.py]: the wire form of a
    [__geo_interface__] mapping and its compiled form.  A [dict] keeps its
    items in insertion order.  [VType] is the builtin class object [type],
    [VVec] an instance of [ezdxf.math.Vector]. *)
Inductive value : Type :=
| VNone
| VNum (q : Q)
| VStr (s : string)
| VVec (v : Vec)
| VType
| VTuple (l : list value)
| VList (l : list value)
| VDict (d : list (value * value)).

(** ** Exceptions *)

(** The message templates of the [raise] statements.  An f-string keeps its
    arguments instead of being rendered. *)
Inductive message : Type :=
| Required_key_not_found (key : string)
| Missing_key_in (key : string) (what : value)
| Invalid_type (type_ : value)
| Invalid_coordinate_sequence
| Invalid_vertex_count
| Invalid_vertex_count_n (n : nat)
| Type_mismatch (types : list value)
| Polymesh_and_Polyface_not_supported
| Unsupported_dxftype (dxftype : string)
| HATCH_without_any_boundary_path
| Four_control_points_required
| t_not_in_range
| Invalid_segments (segments : Z)
| Raised_by_interpreter (what : string).

(** The exception classes that can leave the two modules. *)
Inductive exn : Type :=
| ValueError (m : message)
| TypeError (m : message)
| AttributeError (name : string)
| KeyError (key : value)
| IndexError
| ZeroDivisionError
| DXFAttributeError (name : string).

(** The outcome of a call: a value, an exception, or [Pending] when the
    embedding ran out of fuel before the call returned. *)
Inductive result (A : Type) : Type :=
| Ok (a : A)
| Raise (e : exn)
| Pending.

Arguments Ok {A}.
Arguments Raise {A}.
Arguments Pending {A}.

Definition bind {A B} (r : result A) (k : A -> result B) : result B :=
  match r with
  | Ok a => k a
  | Raise e => Raise e
  | Pending => Pending
  end.

Notation "x <- r ;; k" := (bind r (fun x => k))
  (at level 61, r at next level, right associativity).

(** [[f(x) for x in l]]: the first exception ends the comprehension. *)
Fixpoint mapM {A B} (f : A -> result B) (l : list A) : result (list B) :=
  match l with
  | [] => Ok []
  | a :: l' => b <- f a ;; bs <- mapM f l' ;; Ok (b :: bs)
  end.

(** A generator: the items it yields and how it ended; [Unfinished] when it
    has not ended within the fuel given. *)
Inductive ending : Type :=
| Returned
| Raised (e : exn)
| Unfinished.

Definition gen (A : Type) : Type := (list A * ending)%type.

(** [yield from g] followed by the rest of the generator body. *)
Definition yield_from {A} (g : gen A) (rest : unit -> gen A) : gen A :=
  match snd g with
  | Returned => let r := rest tt in (fst g ++ fst r, snd r)
  | _ => g
  end.

(** [yield a] followed by the rest of the generator body. *)
Definition yield {A} (a : A) (rest : unit -> gen A) : gen A :=
  let r := rest tt in (a :: fst r, snd r).

(** ** [_bezier4p.py] *)

Module Bezier.

Definition check_if_in_valid_range (t : Q) : result unit :=
  if Qle_bool 0 t && Qle_bool t 1 then Ok tt
  else Raise (ValueError t_not_in_range).

(** Bernstein polynomial of 3rd degree. *)
Definition bernstein3 (t : Q) : Q * Q * Q * Q :=
  let t2 := t * t in
  let _1_minus_t := 1 - t in
  let _1_minus_t_square := _1_minus_t * _1_minus_t in
  let a := _1_minus_t_square * _1_minus_t in
  let b := 3 * _1_minus_t_square * t in
  let c := 3 * _1_minus_t * t2 in
  let d := t2 * t in
  (a, b, c, d).

(** First derivative of the Bernstein polynomial of 3rd degree. *)
Definition bernstein3_d1 (t : Q) : Q * Q * Q * Q :=
  let t2 := t * t in
  let a := -(3) * ((1 - t) * (1 - t)) in
  let b := 3 * (1 - 4 * t + 3 * t2) in
  let c := 3 * t * (2 - 3 * t) in
  let d := 3 * t2 in
  (a, b, c, d).

(** The object: exactly four control points. *)
Record Bezier4P : Type := mkBezier4P { b1 : Vec; b2 : Vec; b3 : Vec; b4 : Vec }.

(** [Bezier4P.__init__] *)
Definition new (defpoints : list Vec) : result Bezier4P :=
  match defpoints with
  | [p0; p1; p2; p3] => Ok (mkBezier4P p0 p1 p2 p3)
  | _ => Raise (ValueError Four_control_points_required)
  end.

Definition control_points (self : Bezier4P) : list Vec :=
  [b1 self; b2 self; b3 self; b4 self].

Definition _get_curve_point (self : Bezier4P) (t : Q) : Vec :=
  let '(a, b, c, d) := bernstein3 t in
  vadd (vadd (vadd (vscale (b1 self) a) (vscale (b2 self) b))
             (vscale (b3 self) c))
       (vscale (b4 self) d).

Definition _get_curve_tangent (self : Bezier4P) (t : Q) : Vec :=
  let '(a, b, c, d) := bernstein3_d1 t in
  vadd (vadd (vadd (vscale (b1 self) a) (vscale (b2 self) b))
             (vscale (b3 self) c))
       (vscale (b4 self) d).

Definition point (self : Bezier4P) (t : Q) : result Vec :=
  _ <- check_if_in_valid_range t ;; Ok (_get_curve_point self t).

Definition tangent (self : Bezier4P) (t : Q) : result Vec :=
  _ <- check_if_in_valid_range t ;; Ok (_get_curve_tangent self t).

(** The inner generator [subdiv] of [flattening], in exact arithmetic;
    [fuel] bounds the depth of the recursion.  [Double.subdiv] is the same
    generator on binary64 numbers. *)
Fixpoint subdiv (fuel : nat) (self : Bezier4P) (distance : Q)
    (start_point end_point : Vec) (start_t end_t : Q) : gen Vec :=
  match fuel with
  | O => ([], Unfinished)
  | S fuel' =>
      let mid_t := (start_t + end_t) * (1 # 2) in
      let mid_point := _get_curve_point self mid_t in
      let chk_point := lerp start_point end_point (1 # 2) in
      if distance_lt chk_point mid_point distance then
        yield end_point (fun _ => ([], Returned))
      else
        yield_from (subdiv fuel' self distance start_point mid_point start_t mid_t)
          (fun _ => subdiv fuel' self distance mid_point end_point mid_t end_t)
  end.

(** The [while t0 < 1.0] loop of [flattening], in exact arithmetic: the
    parameter grows by [dt] without rounding.  [fuel] bounds the number of
    iterations and the depth of each [subdiv].  [Double.flattening_loop] is
    the same loop on binary64 numbers. *)
Fixpoint flattening_loop (fuel : nat) (self : Bezier4P) (distance dt t0 : Q)
    (start_point : Vec) : gen Vec :=
  match fuel with
  | O => ([], Unfinished)
  | S fuel' =>
      if Qltb t0 1 then
        let t1 := t0 + dt in
        let '(end_point, t1) :=
          if isclose t1 1 0 then (b4 self, 1)
          else (_get_curve_point self t1, t1) in
        yield_from (subdiv fuel' self distance start_point end_point t0 t1)
          (fun _ => flattening_loop fuel' self distance dt t1 end_point)
      else ([], Returned)
  end.

(** [Bezier4P.flattening(distance, segments)] *)
Definition flattening (fuel : nat) (self : Bezier4P) (distance : Q)
    (segments : Z) : gen Vec :=
  if (segments =? 0)%Z then ([], Raised ZeroDivisionError)
  else
    let dt := 1 / inject_Z segments in
    let t0 := 0 in
    let start_point := b1 self in
    yield start_point
      (fun _ => flattening_loop fuel self distance dt t0 start_point).

(** [Bezier4P.approximate(segments)] *)
Definition approximate (self : Bezier4P) (segments : Z) : gen Vec :=
  if (segments <? 1)%Z then ([], Raised (ValueError (Invalid_segments segments)))
  else
    let delta_t := 1 / inject_Z segments in
    ((b1 self ::
      map (fun segment => _get_curve_point self (delta_t * inject_Z (Z.of_nat segment)))
          (seq 1 (Z.to_nat segments - 1))) ++ [b4 self], Returned).

(** [Bezier4P.reverse()] *)
Definition reverse (self : Bezier4P) : result Bezier4P :=
  new (rev (control_points self)).

End Bezier.

(** ** Operations of the Python data model used by [geo.py] *)

Module Py.

Local Open Scope string_scope.
Local Open Scope list_scope.

Definition interp (what : string) : exn := TypeError (Raised_by_interpreter what).

(** [bool(v)] *)
Definition truthy (v : value) : bool :=
  match v with
  | VNone => false
  | VNum q => negb (Qeq_bool q 0)
  | VStr s => negb (String.eqb s "")
  | VVec v => negb (vec_eqb v (mkVec 0 0 0))
  | VType => true
  | VTuple l | VList l => negb (Nat.eqb (List.length l) 0)
  | VDict d => negb (Nat.eqb (List.length d) 0)
  end.

Definition is_None (v : value) : bool :=
  match v with VNone => true | _ => false end.

(** [v == s] for a string constant [s]. *)
Definition eq_str (v : value) (s : string) : bool :=
  match v with VStr s' => String.eqb s' s | _ => false end.

(** Lists and dicts cannot be hashed, nor a tuple that holds one. *)
Fixpoint hashable (v : value) : bool :=
  match v with
  | VList _ | VDict _ => false
  | VTuple l => forallb hashable l
  | _ => true
  end.

(** [a == b] between hashable values (the keys of dicts and the members of
    sets). *)
Fixpoint key_eqb (a b : value) : bool :=
  match a, b with
  | VNone, VNone => true
  | VNum p, VNum q => Qeq_bool p q
  | VStr s, VStr t => String.eqb s t
  | VVec u, VVec v => vec_eqb u v
  | VType, VType => true
  | VTuple l, VTuple m =>
      (fix go (l : list value) (m : list value) : bool :=
         match l, m with
         | [], [] => true
         | x :: l', y :: m' => key_eqb x y && go l' m'
         | _, _ => false
         end) l m
  | _, _ => false
  end.

(** [v in {c1, c2, ...}] for string constants: membership in a set hashes
    [v]. *)
Definition in_set (v : value) (consts : list string) : result bool :=
  if hashable v then Ok (existsb (fun c => key_eqb v (VStr c)) consts)
  else Raise (interp "unhashable type").

(** [v in (c1, c2, ...)] for string constants: membership in a tuple
    compares [v] with every member. *)
Definition in_tuple (v : value) (consts : list string) : bool :=
  existsb (eq_str v) consts.

Fixpoint lookup (d : list (value * value)) (k : value) : option value :=
  match d with
  | [] => None
  | (k', v) :: d' => if key_eqb k' k then Some v else lookup d' k
  end.

Fixpoint update (d : list (value * value)) (k v : value) : list (value * value) :=
  match d with
  | [] => [(k, v)]
  | (k', v') :: d' => if key_eqb k' k then (k', v) :: d' else (k', v') :: update d' k v
  end.

(** [m.get(key)] *)
Definition get (m : value) (key : string) : result value :=
  match m with
  | VDict d => Ok (match lookup d (VStr key) with Some v => v | None => VNone end)
  | _ => Raise (AttributeError "get")
  end.

(** [key in m] *)
Definition contains (m : value) (key : string) : result bool :=
  match m with
  | VDict d => Ok (match lookup d (VStr key) with Some _ => true | None => false end)
  | VList l | VTuple l => Ok (existsb (fun x => eq_str x key) l)
  | VStr s => Ok (match index 0 key s with Some _ => true | None => false end)
  | _ => Raise (interp "argument is not iterable")
  end.

(** [m[key]] for a string [key]. *)
Definition getitem (m : value) (key : string) : result value :=
  match m with
  | VDict d =>
      match lookup d (VStr key) with
      | Some v => Ok v
      | None => Raise (KeyError (VStr key))
      end
  | VList _ | VTuple _ | VStr _ => Raise (interp "indices must be integers")
  | VVec _ => Raise (interp "indices must be integers")
  | _ => Raise (interp "object is not subscriptable")
  end.

(** [m[key] = v] *)
Definition setitem (m : value) (key v : value) : result value :=
  match m with
  | VDict d =>
      if hashable key then Ok (VDict (update d key v))
      else Raise (interp "unhashable type")
  | VList _ => Raise (interp "indices must be integers")
  | _ => Raise (interp "object does not support item assignment")
  end.

Fixpoint chars (s : string) : list value :=
  match s with
  | EmptyString => []
  | String c s' => VStr (String c EmptyString) :: chars s'
  end.

(** [for x in v]: the items an iteration over [v] visits. *)
Definition iterate (v : value) : result (list value) :=
  match v with
  | VList l | VTuple l => Ok l
  | VDict d => Ok (map fst d)
  | VStr s => Ok (chars s)
  | VVec u => Ok [VNum (vx u); VNum (vy u); VNum (vz u)]
  | _ => Raise (interp "object is not iterable")
  end.

(** [isinstance(v, Sequence)] *)
Definition is_Sequence (v : value) : bool :=
  match v with
  | VList _ | VTuple _ | VStr _ => true
  | _ => false
  end.

(** [len(v)] *)
Definition len (v : value) : result nat :=
  match v with
  | VList l | VTuple l => Ok (List.length l)
  | VDict d => Ok (List.length d)
  | VStr s => Ok (String.length s)
  | VVec _ => Ok 3%nat
  | _ => Raise (interp "object has no len()")
  end.

(** [v[0]] *)
Definition first (v : value) : result value :=
  match v with
  | VList l | VTuple l =>
      match l with x :: _ => Ok x | [] => Raise IndexError end
  | VStr s =>
      match s with String c _ => Ok (VStr (String c EmptyString)) | EmptyString => Raise IndexError end
  | VVec u => Ok (VNum (vx u))
  | VDict d =>
      match lookup d (VNum 0) with Some x => Ok x | None => Raise (KeyError (VNum 0)) end
  | _ => Raise (interp "object is not subscriptable")
  end.

(** [v[1:]] *)
Definition rest (v : value) : result value :=
  match v with
  | VList l => Ok (VList (tl l))
  | VTuple l => Ok (VTuple (tl l))
  | VStr s => Ok (VStr (match s with String _ s' => s' | EmptyString => EmptyString end))
  | VDict _ => Raise (interp "unhashable type")
  | _ => Raise (interp "object is not subscriptable")
  end.

(** [isinstance(v, numbers.Real)] *)
Definition is_Real (v : value) : bool :=
  match v with VNum _ => true | _ => false end.

(** [dict(v)]: a shallow copy of a dict, or a dict built from an iterable of
    key/value pairs. *)
Definition dict (v : value) : result value :=
  match v with
  | VDict d => Ok (VDict d)
  | VNone | VNum _ | VType => Raise (interp "object is not iterable")
  | _ =>
      items <- iterate v ;;
      d <- (fix build (items : list value) (acc : list (value * value)) :=
              match items with
              | [] => Ok acc
              | item :: items' =>
                  kv <- iterate item ;;
                  match kv with
                  | [k; x] =>
                      if hashable k then build items' (update acc k x)
                      else Raise (interp "unhashable type")
                  | _ => Raise (ValueError (Raised_by_interpreter
                                   "dictionary update sequence element has wrong length"))
                  end
              end) items [] ;;
      Ok (VDict d)
  end.

(** [s.add(v)] on a set kept as a duplicate-free list. *)
Definition set_add (s : list value) (v : value) : result (list value) :=
  if hashable v then
    Ok (if existsb (key_eqb v) s then s else s ++ [v])
  else Raise (interp "unhashable type").

(** ['Multi' + v] *)
Definition str_add (s : string) (v : value) : result value :=
  match v with
  | VStr t => Ok (VStr (s ++ t)%string)
  | _ => Raise (interp "can only concatenate str to str")
  end.

(** [v.x] and [v.y] *)
Definition attr_x (v : value) : result value :=
  match v with VVec u => Ok (VNum (vx u)) | _ => Raise (AttributeError "x") end.

Definition attr_y (v : value) : result value :=
  match v with VVec u => Ok (VNum (vy u)) | _ => Raise (AttributeError "y") end.

(** [(v.x, v.y)] *)
Definition xy (v : value) : result value :=
  x <- attr_x v ;; y <- attr_y v ;; Ok (VTuple [x; y]).

(** Modelled from the spec: the constructor [Vector(v)] of the absent class
    [Vector], from a [Vector] or a sequence of two or three numbers. *)
Definition Vector (v : value) : result value :=
  match v with
  | VVec u => Ok (VVec u)
  | VList [VNum x; VNum y] | VTuple [VNum x; VNum y] => Ok (VVec (vec2 x y))
  | VList [VNum x; VNum y; VNum z] | VTuple [VNum x; VNum y; VNum z] =>
      Ok (VVec (mkVec x y z))
  | _ => Raise (interp "invalid vertex")
  end.

(** Modelled from the spec: [Vector.list(items)], the list of the
    [Vector]s of the items. *)
Definition Vector_list (items : value) : result value :=
  l <- iterate items ;; vs <- mapM Vector l ;; Ok (VList vs).

End Py.

(** ** [geo.py]: parsing, rebuilding and iterating a mapping *)

Module Geo.

Local Open Scope string_scope.
Local Open Scope list_scope.

Definition TYPE := "type".
Definition COORDINATES := "coordinates".
Definition POINT := "Point".
Definition MULTI_POINT := "MultiPoint".
Definition LINE_STRING := "LineString".
Definition MULTI_LINE_STRING := "MultiLineString".
Definition POLYGON := "Polygon".
Definition MULTI_POLYGON := "MultiPolygon".
Definition GEOMETRY_COLLECTION := "GeometryCollection".
Definition GEOMETRIES := "geometries".
Definition GEOMETRY := "geometry".
Definition FEATURES := "features".
Definition FEATURE := "Feature".
Definition FEATURE_COLLECTION := "FeatureCollection".
Definition MAX_FLATTENING_DISTANCE : Q := 1 # 10.

(** [_is_coordinate_sequence(coordinates)] *)
Definition _is_coordinate_sequence (coordinates : value) : result bool :=
  if negb (Py.is_Sequence coordinates) then
    Raise (ValueError Invalid_coordinate_sequence)
  else
    n <- Py.len coordinates ;;
    if Nat.eqb n 0 then Raise (ValueError Invalid_coordinate_sequence)
    else
      first_item <- Py.first coordinates ;;
      m <- Py.len first_item ;;
      if Nat.eqb m 0 then Raise (ValueError Invalid_coordinate_sequence)
      else
        x <- Py.first first_item ;;
        Ok (Py.is_Real x).

(** [_parse_polygon(coordinates)] *)
Definition _parse_polygon (coordinates : value) : result value :=
  flat <- _is_coordinate_sequence coordinates ;;
  eh <- (if flat then Ok (coordinates, VList [])
         else
           exterior <- Py.first coordinates ;;
           holes <- Py.rest coordinates ;;
           Ok (exterior, holes)) ;;
  let '(exterior, holes) := eh in
  ext <- Py.Vector_list exterior ;;
  hs <- Py.iterate holes ;;
  hs' <- mapM Py.Vector_list hs ;;
  Ok (VTuple [ext; VList hs']).

(** [parse(geo_mapping)].  The test of the fourth branch reads
    [type in {...}]: it asks whether the builtin [type] is one of six
    strings, not whether [type_] is. *)
Fixpoint parse (fuel : nat) (geo_mapping : value) : result value :=
  match fuel with
  | O => Pending
  | S fuel' =>
      type_ <- Py.get geo_mapping TYPE ;;
      if Py.is_None type_ then Raise (ValueError (Required_key_not_found TYPE))
      else if Py.eq_str type_ FEATURE_COLLECTION then
        features <- Py.get geo_mapping FEATURES ;;
        if Py.truthy features then
          fs <- Py.iterate features ;;
          parsed <- mapM (parse fuel') fs ;;
          Py.setitem geo_mapping (VStr FEATURES) (VList parsed)
        else Raise (ValueError (Missing_key_in FEATURES (VStr FEATURE_COLLECTION)))
      else if Py.eq_str type_ GEOMETRY_COLLECTION then
        geometries <- Py.get geo_mapping GEOMETRIES ;;
        if Py.truthy geometries then
          gs <- Py.iterate geometries ;;
          parsed <- mapM (parse fuel') gs ;;
          Py.setitem geo_mapping (VStr GEOMETRIES) (VList parsed)
        else Raise (ValueError (Missing_key_in GEOMETRIES (VStr GEOMETRY_COLLECTION)))
      else if Py.eq_str type_ FEATURE then
        has <- Py.contains geo_mapping GEOMETRY ;;
        if (has : bool) then
          geometry <- Py.get geo_mapping GEOMETRY ;;
          parsed <- (if Py.truthy geometry then parse fuel' geometry else Ok VNone) ;;
          Py.setitem geo_mapping (VStr GEOMETRY) parsed
        else Raise (ValueError (Missing_key_in GEOMETRY (VStr FEATURE)))
      else
        known <- Py.in_set VType [POINT; LINE_STRING; POLYGON; MULTI_POINT;
                                  MULTI_LINE_STRING; MULTI_POLYGON] ;;
        if (known : bool) then
          coordinates <- Py.get geo_mapping COORDINATES ;;
          if Py.is_None coordinates then
            Raise (ValueError (Missing_key_in COORDINATES type_))
          else
            coordinates <-
              (if Py.eq_str type_ POINT then Py.Vector coordinates
               else if Py.in_tuple type_ [LINE_STRING; MULTI_POINT] then
                 Py.Vector_list coordinates
               else if Py.eq_str type_ POLYGON then _parse_polygon coordinates
               else if Py.eq_str type_ MULTI_LINE_STRING then
                 vs <- Py.iterate coordinates ;;
                 ls <- mapM Py.Vector_list vs ;; Ok (VList ls)
               else if Py.eq_str type_ MULTI_POLYGON then
                 vs <- Py.iterate coordinates ;;
                 ps <- mapM _parse_polygon vs ;; Ok (VList ps)
               else Ok coordinates) ;;
            Py.setitem geo_mapping coordinates coordinates
        else Raise (TypeError (Invalid_type type_))
  end.

(** [[(v.x, v.y) for v in coordinates]] *)
Definition xy_list (coordinates : value) : result value :=
  vs <- Py.iterate coordinates ;; l <- mapM Py.xy vs ;; Ok (VList l).

(** [_rebuild(geo_mapping)] *)
Fixpoint _rebuild (fuel : nat) (geo_mapping : value) : result value :=
  match fuel with
  | O => Pending
  | S fuel' =>
      geo_interface <- Py.dict geo_mapping ;;
      type_ <- Py.getitem geo_interface TYPE ;;
      if Py.eq_str type_ FEATURE_COLLECTION then
        features <- Py.getitem geo_interface FEATURES ;;
        fs <- Py.iterate features ;;
        rebuilt <- mapM (_rebuild fuel') fs ;;
        Py.setitem geo_interface (VStr FEATURES) (VList rebuilt)
      else if Py.eq_str type_ GEOMETRY_COLLECTION then
        geometries <- Py.getitem geo_interface GEOMETRIES ;;
        gs <- Py.iterate geometries ;;
        rebuilt <- mapM (_rebuild fuel') gs ;;
        Py.setitem geo_interface (VStr GEOMETRIES) (VList rebuilt)
      else if Py.eq_str type_ FEATURE then
        geometry <- Py.getitem geo_interface GEOMETRY ;;
        rebuilt <- _rebuild fuel' geometry ;;
        Py.setitem geo_interface (VStr GEOMETRY) rebuilt
      else if Py.eq_str type_ POINT then
        v <- Py.getitem geo_interface COORDINATES ;;
        c <- Py.xy v ;;
        Py.setitem geo_interface (VStr COORDINATES) c
      else if Py.in_tuple type_ [LINE_STRING; MULTI_POINT] then
        coordinates <- Py.getitem geo_interface COORDINATES ;;
        c <- xy_list coordinates ;;
        Py.setitem geo_interface (VStr COORDINATES) c
      else if Py.eq_str type_ MULTI_LINE_STRING then
        (* [(v.x, v.y) for v in (line for line in coordinates)]: [v] runs
           over the lines themselves *)
        coordinates <- Py.getitem geo_interface COORDINATES ;;
        c <- xy_list coordinates ;;
        Py.setitem geo_interface (VStr COORDINATES) c
      else if Py.eq_str type_ POLYGON then
        pair <- Py.getitem geo_interface COORDINATES ;;
        items <- Py.iterate pair ;;
        match items with
        | [extrior; holes] =>
            coordinates <- xy_list extrior ;;
            coordinates <-
              (if Py.truthy holes then
                 hs <- Py.iterate holes ;;
                 hs' <- mapM xy_list hs ;;
                 Ok (VList (coordinates :: hs'))
               else Ok coordinates) ;;
            Py.setitem geo_interface (VStr COORDINATES) coordinates
        | _ => Raise (ValueError (Raised_by_interpreter "cannot unpack"))
        end
      else Ok geo_interface
  end.

(** The inner generator [_iter] of [GeoProxy.__iter__]. *)
Fixpoint _iter (fuel : nat) (root : value) : gen value :=
  match fuel with
  | O => ([], Unfinished)
  | S fuel' =>
      match Py.getitem root TYPE with
      | Raise e => ([], Raised e)
      | Pending => ([], Unfinished)
      | Ok type_ =>
          if Py.eq_str type_ FEATURE_COLLECTION then
            match Py.getitem root FEATURES with
            | Ok features => yield_from (_iter fuel' features) (fun _ => ([], Returned))
            | Raise e => ([], Raised e)
            | Pending => ([], Unfinished)
            end
          else if Py.eq_str type_ GEOMETRY_COLLECTION then
            match Py.getitem root GEOMETRIES with
            | Ok geometries => yield_from (_iter fuel' geometries) (fun _ => ([], Returned))
            | Raise e => ([], Raised e)
            | Pending => ([], Unfinished)
            end
          else if Py.eq_str type_ FEATURE then
            match Py.getitem root GEOMETRY with
            | Ok geometry => yield geometry (fun _ => ([], Returned))
            | Raise e => ([], Raised e)
            | Pending => ([], Unfinished)
            end
          else yield root (fun _ => ([], Returned))
      end
  end.

(** *** Mappings built from vertices *)

Definition vertices (points : list Vec) : value := VList (map VVec points).

(** [line_string_mapping(points)] *)
Definition line_string_mapping (points : list Vec) : value :=
  VDict [(VStr TYPE, VStr LINE_STRING); (VStr COORDINATES, vertices points)].

(** [points[0].isclose(points[-1])] *)
Definition first_isclose_last (points : list Vec) : result bool :=
  match points with
  | [] => Raise IndexError
  | p :: _ => Ok (vec_isclose p (last points p))
  end.

Definition is_linear_ring (points : list Vec) : result bool :=
  first_isclose_last points.

(** The sum of the clockwise test over the consecutive pairs
    [zip(vertices, vertices[1:])]. *)
Fixpoint clockwise_sum (vertices : list Vec) : Q :=
  match vertices with
  | [] => 0
  | p1 :: rest =>
      match rest with
      | [] => 0
      | p2 :: _ => (vx p2 - vx p1) * (vy p2 + vy p1) + clockwise_sum rest
      end
  end.

(** Modelled from the spec: [has_clockwise_orientation] of [ezdxf.math] is
    not among the sources; "computes signed orientation (shoelace-style
    clockwise test)".  The test closes the polygon, ignores the z-axis and
    asks for a positive sum. *)
Definition has_clockwise_orientation (vertices : list Vec) : bool :=
  let closed :=
    match vertices with
    | [] => vertices
    | p :: _ => if vec_isclose p (last vertices p) then vertices else vertices ++ [p]
    end in
  Qltb 0 (clockwise_sum closed).

(** [linear_ring(points, ccw)] *)
Definition linear_ring (points : list Vec) (ccw : bool) : result (list Vec) :=
  if (List.length points <? 3)%nat then
    Raise (ValueError (Invalid_vertex_count_n (List.length points)))
  else
    closed <- first_isclose_last points ;;
    let points :=
      if negb closed then points ++ [hd (mkVec 0 0 0) points] else points in
    let points :=
      if has_clockwise_orientation points then
        if ccw then rev points else points
      else
        if negb ccw then rev points else points in
    Ok points.

(** [polygon_mapping(points, holes)]; [holes] defaults to [None]. *)
Definition polygon_mapping (points : list Vec) (holes : option (list (list Vec)))
  : result value :=
  exterior <- linear_ring points true ;;
  rings <-
    (match holes with
     | Some ((_ :: _) as hs) =>
         rs <- mapM (fun hole => linear_ring hole false) hs ;;
         Ok (VList (vertices exterior :: map vertices rs))
     | _ => Ok (vertices exterior)
     end) ;;
  Ok (VDict [(VStr TYPE, VStr POLYGON); (VStr COORDINATES, rings)]).

(** The loop of [join_multi_single_type_mappings]. *)
Fixpoint join_loop (geometries : list value) (types data : list value)
  : result (list value * list value) :=
  match geometries with
  | [] => Ok (types, data)
  | g :: geometries' =>
      t <- Py.getitem g TYPE ;;
      types <- Py.set_add types t ;;
      c <- Py.getitem g COORDINATES ;;
      join_loop geometries' types (data ++ [c])
  end.

(** [join_multi_single_type_mappings(geometries)] *)
Definition join_multi_single_type_mappings (geometries : list value) : result value :=
  td <- join_loop geometries [] [] ;;
  let '(types, data) := td in
  if (1 <? List.length types)%nat then Raise (TypeError (Type_mismatch types))
  else if (List.length types =? 0)%nat then Ok (VDict [])
  else
    tag <- Py.str_add "Multi" (hd VNone types) ;;
    Ok (VDict [(VStr TYPE, tag); (VStr COORDINATES, VList data)]).

(** [geometry_collection_mapping(geometries)] *)
Definition geometry_collection_mapping (geometries : list value) : value :=
  VDict [(VStr TYPE, VStr GEOMETRY_COLLECTION); (VStr GEOMETRIES, VList geometries)].

(** [_line_string_or_polygon_mapping(points, force_line_string)] *)
Definition _line_string_or_polygon_mapping (points : list Vec)
    (force_line_string : bool) : result value :=
  let len_ := List.length points in
  if (len_ <? 2)%nat then Raise (ValueError Invalid_vertex_count)
  else if (len_ =? 2)%nat || force_line_string then Ok (line_string_mapping points)
  else
    ring <- is_linear_ring points ;;
    if (ring : bool) then polygon_mapping points None
    else Ok (line_string_mapping points).

(** *** The entity layer *)

(** Modelled from the spec: the DXF entity classes are not among the
    sources.  The entity layer hands over "a type tag, flattenable
    curve/boundary accessors, and raw coordinate lists"; for a hatch "an
    ordered boundary-path list where each path reports whether it is flagged
    external, outermost, or default, plus the hatch's fill-style enum and
    elevation/plane". *)
Inductive hatch_style : Type :=
| HATCH_STYLE_NESTED
| HATCH_STYLE_OUTERMOST
| HATCH_STYLE_IGNORE.

Inductive path_flag : Type :=
| BOUNDARY_PATH_EXTERNAL
| BOUNDARY_PATH_OUTERMOST
| BOUNDARY_PATH_DEFAULT.

(** A boundary path: [path_id] is its identity [id(p)]; [path_flattening
    elevation distance] stands for
    [list(Path.from_hatch_..._path(p, ocs, elevation).flattening(distance))]. *)
Record BoundaryPath : Type := mkBoundaryPath {
  path_id : nat;
  PATH_TYPE : string;
  flag : path_flag;
  path_flattening : Q -> Q -> list Vec
}.

(** The attributes of the DXF namespace [hatch.dxf], and the boundary paths
    [hatch.paths]. *)
Record Hatch : Type := mkHatch {
  dxf_elevation : Vec;
  dxf_hatch_style : hatch_style;
  paths : list BoundaryPath
}.

Inductive attribute : Type :=
| AVec (v : Vec)
| AStyle (s : hatch_style).

(** [hatch.dxf.<name>]: a name the namespace does not define raises. *)
Definition dxf (hatch : Hatch) (name : string) : result attribute :=
  if String.eqb name "elevation" then Ok (AVec (dxf_elevation hatch))
  else if String.eqb name "hatch_style" then Ok (AStyle (dxf_hatch_style hatch))
  else Raise (DXFAttributeError name).

(** [a.z] *)
Definition attr_z (a : attribute) : result Q :=
  match a with AVec v => Ok (vz v) | AStyle _ => Raise (AttributeError "z") end.

(** [a == const.HATCH_STYLE_...] *)
Definition is_style (a : attribute) (s : hatch_style) : bool :=
  match a, s with
  | AStyle HATCH_STYLE_NESTED, HATCH_STYLE_NESTED
  | AStyle HATCH_STYLE_OUTERMOST, HATCH_STYLE_OUTERMOST
  | AStyle HATCH_STYLE_IGNORE, HATCH_STYLE_IGNORE => true
  | _, _ => false
  end.

Definition has_flag (f : path_flag) (p : BoundaryPath) : bool :=
  match flag p, f with
  | BOUNDARY_PATH_EXTERNAL, BOUNDARY_PATH_EXTERNAL
  | BOUNDARY_PATH_OUTERMOST, BOUNDARY_PATH_OUTERMOST
  | BOUNDARY_PATH_DEFAULT, BOUNDARY_PATH_DEFAULT => true
  | _, _ => false
  end.

(** [boundaries.external_path()], [.outer_most_paths()], [.default_paths()] *)
Definition external_path (boundaries : list BoundaryPath) : option BoundaryPath :=
  find (has_flag BOUNDARY_PATH_EXTERNAL) boundaries.

Definition outer_most_paths (boundaries : list BoundaryPath) : list BoundaryPath :=
  filter (has_flag BOUNDARY_PATH_OUTERMOST) boundaries.

Definition default_paths (boundaries : list BoundaryPath) : list BoundaryPath :=
  filter (has_flag BOUNDARY_PATH_DEFAULT) boundaries.

Inductive curve_type : Type := CIRCLE | ARC | ELLIPSE | SPLINE.
Inductive face_type : Type := SOLID | TRACE | FACE3D.

(** A DXF entity by its [dxftype()].  [flattening distance] stands for the
    flattened path of the entity, [wcs_vertices] for
    [entity.wcs_vertices(close=True)]. *)
Inductive DXFGraphic : Type :=
| Point_ (location : Vec)
| Line_ (start end_ : Vec)
| Polyline_ (is_2d_polyline is_3d_polyline : bool) (flattening : Q -> list Vec)
| LWPolyline_ (flattening : Q -> list Vec)
| Curve_ (dxftype : curve_type) (flattening : Q -> list Vec)
| Face_ (dxftype : face_type) (wcs_vertices : list Vec)
| Hatch_ (hatch : Hatch)
| Other_ (dxftype : string).

(** *** Mapping entities *)

(** The inner function [boundary_to_vertices] of [_hatch_as_polygon]. *)
Definition boundary_to_vertices (elevation distance : Q) (boundary : BoundaryPath)
  : result (list Vec) :=
  let vertices := path_flattening boundary elevation distance in
  closed <- first_isclose_last vertices ;;
  Ok (if negb closed then vertices ++ [hd (mkVec 0 0 0) vertices] else vertices).

(** The inner function [filter_external] of [_hatch_as_polygon]. *)
Definition filter_external (has_explicit_external : bool) (external : BoundaryPath)
    (paths : list BoundaryPath) : list BoundaryPath :=
  if negb has_explicit_external then
    filter (fun p => negb (Nat.eqb (path_id p) (path_id external))) paths
  else paths.

(** The body of [_hatch_as_polygon] below the line that reads the fill
    style. *)
Definition hatch_paths_as_polygon (elevation : Q) (hatch_style : attribute)
    (boundaries : list BoundaryPath) (distance : Q) (force_line_string : bool)
  : result value :=
  let count := List.length boundaries in
  match boundaries with
  | [] => Raise (ValueError HATCH_without_any_boundary_path)
  | first_path :: _ =>
      let '(has_explicit_external, external) :=
        match external_path boundaries with
        | Some p => (true, p)
        | None => (false, first_path)
        end in
      if (count =? 1)%nat || is_style hatch_style HATCH_STYLE_IGNORE then
        points <- boundary_to_vertices elevation distance external ;;
        _line_string_or_polygon_mapping points force_line_string
      else
        let holes :=
          filter_external has_explicit_external external (outer_most_paths boundaries) in
        let hatch_style :=
          if is_style hatch_style HATCH_STYLE_OUTERMOST && (List.length holes =? 0)%nat
          then AStyle HATCH_STYLE_NESTED else hatch_style in
        let holes :=
          if is_style hatch_style HATCH_STYLE_NESTED then
            holes ++ filter_external has_explicit_external external (default_paths boundaries)
          else holes in
        if force_line_string then
          points <- boundary_to_vertices elevation distance external ;;
          g <- _line_string_or_polygon_mapping points force_line_string ;;
          gs <- mapM (fun hole =>
                        points <- boundary_to_vertices elevation distance hole ;;
                        _line_string_or_polygon_mapping points force_line_string)
                     holes ;;
          join_multi_single_type_mappings (g :: gs)
        else
          points <- boundary_to_vertices elevation distance external ;;
          hs <- mapM (boundary_to_vertices elevation distance) holes ;;
          polygon_mapping points (Some hs)
  end.

(** [_hatch_as_polygon(hatch, distance, force_line_string)].  The fill
    style is read as [hatch.dxf.hath_style]. *)
Definition _hatch_as_polygon (hatch : Hatch) (distance : Q)
    (force_line_string : bool) : result value :=
  e <- dxf hatch "elevation" ;;
  elevation <- attr_z e ;;
  hatch_style <- dxf hatch "hath_style" ;;
  hatch_paths_as_polygon elevation hatch_style (paths hatch) distance force_line_string.

(** [mapping(entity, distance, force_line_string)] *)
Definition mapping (entity : DXFGraphic) (distance : Q) (force_line_string : bool)
  : result value :=
  match entity with
  | Point_ location =>
      Ok (VDict [(VStr TYPE, VStr POINT); (VStr COORDINATES, VVec location)])
  | Line_ start end_ => Ok (line_string_mapping [start; end_])
  | Polyline_ is_2d_polyline is_3d_polyline flattening =>
      if is_3d_polyline || is_2d_polyline then
        _line_string_or_polygon_mapping (flattening distance) force_line_string
      else Raise (TypeError Polymesh_and_Polyface_not_supported)
  | LWPolyline_ flattening =>
      _line_string_or_polygon_mapping (flattening distance) force_line_string
  | Curve_ _ flattening =>
      _line_string_or_polygon_mapping (flattening distance) force_line_string
  | Face_ _ wcs_vertices =>
      _line_string_or_polygon_mapping wcs_vertices force_line_string
  | Hatch_ hatch => _hatch_as_polygon hatch distance force_line_string
  | Other_ dxftype => Raise (TypeError (Unsupported_dxftype dxftype))
  end.

(** [set(g[TYPE] for g in m)] *)
Fixpoint types_of (m : list value) (types : list value) : result (list value) :=
  match m with
  | [] => Ok types
  | g :: m' =>
      t <- Py.getitem g TYPE ;;
      types <- Py.set_add types t ;;
      types_of m' types
  end.

(** [collection(entities, distance, force_line_string)] *)
Definition collection (entities : list DXFGraphic) (distance : Q)
    (force_line_string : bool) : result value :=
  m <- mapM (fun e => mapping e distance force_line_string) entities ;;
  types <- types_of m [] ;;
  if (1 <? List.length types)%nat then Ok (geometry_collection_mapping m)
  else join_multi_single_type_mappings m.

(** *** The proxy *)

Record GeoProxy : Type := mkGeoProxy { _root : value }.

(** [GeoProxy.__init__(geo_mapping)] *)
Definition GeoProxy_init (fuel : nat) (geo_mapping : value) : result GeoProxy :=
  root <- parse fuel geo_mapping ;; Ok (mkGeoProxy root).

(** The first argument of [proxy] and [from_dxf_entities]: a single entity
    ([isinstance(entity, DXFGraphic)]) or an iterable of entities. *)
Inductive entity_or_entities : Type :=
| Single (entity : DXFGraphic)
| Iterable (entities : list DXFGraphic).

(** [GeoProxy.from_dxf_entities(entity, distance, force_line_string)] *)
Definition from_dxf_entities (fuel : nat) (entity : entity_or_entities)
    (distance : Q) (force_line_string : bool) : result GeoProxy :=
  m <- (match entity with
        | Single e => mapping e distance force_line_string
        | Iterable es => collection es distance false
        end) ;;
  GeoProxy_init fuel m.

(** [proxy(entity, distance, force_line_string)] *)
Definition proxy (fuel : nat) (entity : entity_or_entities) (distance : Q)
    (force_line_string : bool) : result GeoProxy :=
  from_dxf_entities fuel entity distance force_line_string.

(** [GeoProxy.__geo_interface__] *)
Definition __geo_interface__ (fuel : nat) (self : GeoProxy) : result value :=
  _rebuild fuel (_root self).

(** [GeoProxy.__iter__()] *)
Definition __iter__ (fuel : nat) (self : GeoProxy) : gen value :=
  yield_from (_iter fuel (_root self)) (fun _ => ([], Returned)).

(** *** Filtering entities *)

Definition SUPPORTED_DXF_TYPES : list string :=
  ["POINT"; "LINE"; "LWPOLYLINE"; "POLYLINE"; "HATCH";
   "SOLID"; "TRACE"; "3DFACE"; "CIRCLE"; "ARC"; "ELLIPSE"; "SPLINE"].

(** [entity.dxftype()] *)
Definition dxftype (entity : DXFGraphic) : string :=
  match entity with
  | Point_ _ => "POINT"
  | Line_ _ _ => "LINE"
  | Polyline_ _ _ _ => "POLYLINE"
  | LWPolyline_ _ => "LWPOLYLINE"
  | Curve_ CIRCLE _ => "CIRCLE"
  | Curve_ ARC _ => "ARC"
  | Curve_ ELLIPSE _ => "ELLIPSE"
  | Curve_ SPLINE _ => "SPLINE"
  | Face_ SOLID _ => "SOLID"
  | Face_ TRACE _ => "TRACE"
  | Face_ FACE3D _ => "3DFACE"
  | Hatch_ _ => "HATCH"
  | Other_ dxftype => dxftype
  end.

(** [gfilter(entities)] *)
Fixpoint gfilter (entities : list DXFGraphic) : list DXFGraphic :=
  match entities with
  | [] => []
  | e :: entities' =>
      if String.eqb (dxftype e) "POLYLINE" then
        match e with
        | Polyline_ is_2d_polyline is_3d_polyline _ =>
            if is_2d_polyline || is_3d_polyline then e :: gfilter entities'
            else gfilter entities'
        | _ => gfilter entities'
        end
      else if existsb (String.eqb (dxftype e)) SUPPORTED_DXF_TYPES then
        e :: gfilter entities'
      else gfilter entities'
  end.

(** *** Transforming coordinates *)

(** The inner function [convert] of [GeoProxy._transform]; [func] is the
    point transformation of the matrix. *)
Fixpoint convert (fuel : nat) (func : Vec -> Vec) (coords : value) : result value :=
  match fuel with
  | O => Pending
  | S fuel' =>
      match coords with
      | VVec v => Ok (VVec (func v))
      | _ =>
          cs <- Py.iterate coords ;;
          cs' <- mapM (convert fuel' func) cs ;;
          Ok (VList cs')
      end
  end.

(** The inner function [process] of [GeoProxy._transform]: the mapping
    after the assignment to its coordinates. *)
Definition process (fuel : nat) (func : Vec -> Vec) (entity : value) : result value :=
  coordinates <- Py.getitem entity COORDINATES ;;
  converted <- convert fuel func coordinates ;;
  Py.setitem entity (VStr COORDINATES) converted.

(** [GeoProxy._transform(func)]: the tree after the loop.  The mappings that
    [__iter__] yields are objects of the tree and [process] assigns to them
    in place, so the walk of [_iter] is repeated here with the assignment
    written back at the place of the yielded mapping. *)
Fixpoint _transform_at (fuel : nat) (func : Vec -> Vec) (root : value) : result value :=
  match fuel with
  | O => Pending
  | S fuel' =>
      type_ <- Py.getitem root TYPE ;;
      if Py.eq_str type_ FEATURE_COLLECTION then
        features <- Py.getitem root FEATURES ;;
        features' <- _transform_at fuel' func features ;;
        Py.setitem root (VStr FEATURES) features'
      else if Py.eq_str type_ GEOMETRY_COLLECTION then
        geometries <- Py.getitem root GEOMETRIES ;;
        geometries' <- _transform_at fuel' func geometries ;;
        Py.setitem root (VStr GEOMETRIES) geometries'
      else if Py.eq_str type_ FEATURE then
        geometry <- Py.getitem root GEOMETRY ;;
        geometry' <- process fuel' func geometry ;;
        Py.setitem root (VStr GEOMETRY) geometry'
      else process fuel' func root
  end.

Definition _transform (fuel : nat) (func : Vec -> Vec) (self : GeoProxy)
  : result GeoProxy :=
  root <- _transform_at fuel func (_root self) ;; Ok (mkGeoProxy root).

(** *** Mappings to entities *)

(** Modelled from the spec: the entity factory and the entity classes of
    [ezdxf.entities] are not among the sources; "constructible point,
    outline (polyline-like), and boundary-fill (hatch-like) entities,
    parameterized by a caller-supplied attribute bag opaque to this core".
    These are the calls [to_dxf_entities] makes on them.  Each of them may
    raise: the factory on an attribute bag it does not accept, an entity on
    data that is no vertex or no sequence of vertices.  An entity is a
    mutable object of the type [E]; a call that changes it returns the
    changed entity, and what a call does depends on its arguments only. *)
Record Factory (E : Type) : Type := mkFactory {
  (* factory.new(dxftype, dxfattribs=dxfattribs) *)
  factory_new : string -> value -> result E;
  (* point.dxf.location = vertex *)
  set_location : E -> value -> result E;
  (* polyline.append_points(vertices, format='xy') *)
  append_points : E -> value -> result E;
  (* hatch.dxf.hatch_style = style *)
  set_hatch_style : E -> hatch_style -> result E;
  (* hatch.paths.add_polyline_path(vertices, flags=flags) *)
  add_polyline_path : E -> value -> path_flag -> result E
}.

Arguments factory_new {E}.
Arguments set_location {E}.
Arguments append_points {E}.
Arguments set_hatch_style {E}.
Arguments add_polyline_path {E}.

(** A generator that fails at its start. *)
Definition raising {A} (r : result (gen A)) : gen A :=
  match r with
  | Ok g => g
  | Raise e => ([], Raised e)
  | Pending => ([], Unfinished)
  end.

(** [yield f(...)] at the end of a generator body: the call is made when
    the generator reaches it, and an exception of the call ends the
    generator. *)
Definition yield_call {A} (r : result A) : gen A :=
  raising (a <- r ;; Ok ([a], Returned)).

(** [[exterior] + holes] *)
Definition list_add (exterior holes : value) : result (list value) :=
  match holes with
  | VList hs => Ok (exterior :: hs)
  | _ => Raise (Py.interp "can only concatenate list to list")
  end.

(** [exterior, holes = data] *)
Definition unpack2 (data : value) : result (value * value) :=
  items <- Py.iterate data ;;
  match items with
  | [a; b] => Ok (a, b)
  | _ => Raise (ValueError (Raised_by_interpreter "cannot unpack"))
  end.

(** A loop [for data in ...: yield from body(data)]. *)
Fixpoint for_each {A B} (body : A -> gen B) (l : list A) : gen B :=
  match l with
  | [] => ([], Returned)
  | a :: l' => yield_from (body a) (fun _ => for_each body l')
  end.

Section ToEntities.

Context {E : Type} (factory : Factory E).

(** The inner function [point]. *)
Definition point (dxfattribs vertex : value) : result E :=
  point <- factory_new factory "POINT" dxfattribs ;;
  set_location factory point vertex.

(** The inner function [lwpolyline]. *)
Definition lwpolyline (dxfattribs vertices : value) : result E :=
  polyline <- factory_new factory "LWPOLYLINE" dxfattribs ;;
  append_points factory polyline vertices.

(** The loop [for hole in holes] of [hatch_]. *)
Fixpoint add_holes (hatch : E) (holes : list value) : result E :=
  match holes with
  | [] => Ok hatch
  | hole :: holes' =>
      hatch <- add_polyline_path factory hatch hole BOUNDARY_PATH_OUTERMOST ;;
      add_holes hatch holes'
  end.

(** The inner function [hatch_]. *)
Definition hatch_ (dxfattribs exterior holes : value) : result E :=
  hatch <- factory_new factory "HATCH" dxfattribs ;;
  hatch <- set_hatch_style factory hatch HATCH_STYLE_OUTERMOST ;;
  hatch <- add_polyline_path factory hatch exterior BOUNDARY_PATH_EXTERNAL ;;
  holes <- Py.iterate holes ;;
  add_holes hatch holes.

(** The inner generator [polygon_]; [polygon] is the method of conversion,
    tested bit by bit. *)
Definition polygon_ (polygon : Z) (dxfattribs exterior holes : value) : gen E :=
  yield_from
    (if negb (Z.land polygon 2 =? 0)%Z then
       yield_call (hatch_ dxfattribs exterior holes)
     else ([], Returned))
    (fun _ =>
       if negb (Z.land polygon 1 =? 0)%Z then
         raising (paths <- list_add exterior holes ;;
                  Ok (for_each (fun path => yield_call (lwpolyline dxfattribs path))
                               paths))
       else ([], Returned)).

(** The inner generator [entity] of [to_dxf_entities]. *)
Definition entity (polygon : Z) (dxfattribs type_ coordinates : value) : gen E :=
  if Py.eq_str type_ POINT then yield_call (point dxfattribs coordinates)
  else if Py.eq_str type_ LINE_STRING then yield_call (lwpolyline dxfattribs coordinates)
  else if Py.eq_str type_ POLYGON then
    raising (eh <- unpack2 coordinates ;;
             Ok (polygon_ polygon dxfattribs (fst eh) (snd eh)))
  else if Py.eq_str type_ MULTI_POINT then
    raising (ds <- Py.iterate coordinates ;;
             Ok (for_each (fun data => yield_call (point dxfattribs data)) ds))
  else if Py.eq_str type_ MULTI_LINE_STRING then
    raising (ds <- Py.iterate coordinates ;;
             Ok (for_each (fun data => yield_call (lwpolyline dxfattribs data)) ds))
  else if Py.eq_str type_ MULTI_POLYGON then
    raising (ds <- Py.iterate coordinates ;;
             Ok (for_each (fun data =>
                             raising (eh <- unpack2 data ;;
                                      Ok (polygon_ polygon dxfattribs (fst eh) (snd eh))))
                          ds))
  else ([], Returned).

(** [GeoProxy.to_dxf_entities(polygon, dxfattribs)]; [dxfattribs] is the
    dict of attributes or [None]. *)
Definition to_dxf_entities (fuel : nat) (self : GeoProxy) (polygon : Z)
    (dxfattribs : value) : gen E :=
  let dxfattribs := if Py.truthy dxfattribs then dxfattribs else VDict [] in
  let '(mappings, ending) := __iter__ fuel self in
  yield_from
    (for_each (fun _mapping =>
                 raising (type_ <- Py.get _mapping TYPE ;;
                          coordinates <- Py.get _mapping COORDINATES ;;
                          Ok (entity polygon dxfattribs type_ coordinates)))
              mappings)
    (fun _ => ([], ending)).

End ToEntities.

End Geo.

(** ** The numerical functions in binary64 arithmetic *)

(** Python's [float] is the binary64 format of IEEE 754 with rounding to
    nearest, ties to even; so are the primitive floating-point numbers used
    here.  The functions below are the functions of the same names above,
    with every operation rounded as Python rounds it. *)

Module Double.

Local Open Scope float_scope.

(** Modelled from the spec: the vector classes of [ezdxf.math] are not
    among the sources.  "An ordered 2- or 3-component real-valued
    coordinate; immutable; arithmetic (add/scale/distance/
    linear-interpolate) is value-based".  The operations work component by
    component; a 2D vector is a vector whose third component is 0, which
    adds nothing to a sum or to a distance. *)
Record Vec : Type := mkVec { vx : float; vy : float; vz : float }.

Definition vec2 (x y : float) : Vec := mkVec x y 0.

Definition vadd (a b : Vec) : Vec :=
  mkVec (vx a + vx b) (vy a + vy b) (vz a + vz b).

Definition vsub (a b : Vec) : Vec :=
  mkVec (vx a - vx b) (vy a - vy b) (vz a - vz b).

Definition vscale (a : Vec) (k : float) : Vec :=
  mkVec (vx a * k) (vy a * k) (vz a * k).

(** [a.lerp(b, factor)], [factor] defaults to 0.5. *)
Definition lerp (a b : Vec) (factor : float) : Vec :=
  vadd a (vscale (vsub b a) factor).

(** [a.distance(b)]: the length of the difference. *)
Definition vdistance (a b : Vec) : float :=
  let d := vsub b a in sqrt (vx d * vx d + vy d * vy d + vz d * vz d).

(** [math.isclose(a, b, rel_tol=1e-09, abs_tol=abs_tol)] of the Python
    standard library; the literal is the binary64 number nearest to
    1e-09. *)
Definition rel_tol : float := 0x1.12e0be826d695p-30.

Definition isclose (a b abs_tol : float) : bool :=
  if a =? b then true
  else if is_infinity a || is_infinity b then false
  else
    let diff := abs (b - a) in
    (diff <=? abs (rel_tol * b)) || (diff <=? abs (rel_tol * a))
    || (diff <=? abs_tol).

(** Modelled from the spec: [Vector.isclose], "first ≈ last within
    tolerance", componentwise [math.isclose] with [abs_tol=1e-12]. *)
Definition vec_abs_tol : float := 0x1.19799812dea11p-40.

Definition vec_isclose (a b : Vec) : bool :=
  isclose (vx a) (vx b) vec_abs_tol &&
  isclose (vy a) (vy b) vec_abs_tol &&
  isclose (vz a) (vz b) vec_abs_tol.

(** The value of a binary64 number as a rational number; 0 for the
    infinities and for not-a-number. *)
Definition exact (x : float) : Q :=
  match Prim2SF x with
  | S754_finite s m e =>
      let q := (inject_Z (Zpos m) * Qpower 2 e)%Q in
      if s then (- q)%Q else q
  | _ => 0%Q
  end.

(** *** [_bezier4p.py] *)

(** Bernstein polynomial of 3rd degree. *)
Definition bernstein3 (t : float) : float * float * float * float :=
  let t2 := t * t in
  let _1_minus_t := 1 - t in
  let _1_minus_t_square := _1_minus_t * _1_minus_t in
  let a := _1_minus_t_square * _1_minus_t in
  let b := 3 * _1_minus_t_square * t in
  let c := 3 * _1_minus_t * t2 in
  let d := t2 * t in
  (a, b, c, d).

Record Bezier4P : Type := mkBezier4P { b1 : Vec; b2 : Vec; b3 : Vec; b4 : Vec }.

Definition _get_curve_point (self : Bezier4P) (t : float) : Vec :=
  let '(a, b, c, d) := bernstein3 t in
  vadd (vadd (vadd (vscale (b1 self) a) (vscale (b2 self) b))
             (vscale (b3 self) c))
       (vscale (b4 self) d).

(** The inner generator [subdiv] of [flattening]; [fuel] bounds the depth of
    the recursion. *)
Fixpoint subdiv (fuel : nat) (self : Bezier4P) (distance : float)
    (start_point end_point : Vec) (start_t end_t : float) : gen Vec :=
  match fuel with
  | O => ([], Unfinished)
  | S fuel' =>
      let mid_t := (start_t + end_t) * 0.5 in
      let mid_point := _get_curve_point self mid_t in
      let chk_point := lerp start_point end_point 0.5 in
      if vdistance chk_point mid_point <? distance then
        yield end_point (fun _ => ([], Returned))
      else
        yield_from (subdiv fuel' self distance start_point mid_point start_t mid_t)
          (fun _ => subdiv fuel' self distance mid_point end_point mid_t end_t)
  end.

(** The [while t0 < 1.0] loop of [flattening]; [fuel] bounds the number of
    iterations and the depth of each [subdiv]. *)
Fixpoint flattening_loop (fuel : nat) (self : Bezier4P) (distance dt t0 : float)
    (start_point : Vec) : gen Vec :=
  match fuel with
  | O => ([], Unfinished)
  | S fuel' =>
      if t0 <? 1 then
        let t1 := t0 + dt in
        let '(end_point, t1) :=
          if isclose t1 1 0 then (b4 self, 1)
          else (_get_curve_point self t1, t1) in
        yield_from (subdiv fuel' self distance start_point end_point t0 t1)
          (fun _ => flattening_loop fuel' self distance dt t1 end_point)
      else ([], Returned)
  end.

(** The binary64 number of an integer of a magnitude below 2^63, as the
    division [1.0 / segments] converts its second operand. *)
Definition float_of_int (n : Z) : float :=
  if (n <? 0)%Z then - of_uint63 (Uint63.of_Z (- n))
  else of_uint63 (Uint63.of_Z n).

(** [Bezier4P.flattening(distance, segments)] *)
Definition flattening (fuel : nat) (self : Bezier4P) (distance : float)
    (segments : Z) : gen Vec :=
  if (segments =? 0)%Z then ([], Raised ZeroDivisionError)
  else
    let dt := 1 / float_of_int segments in
    let t0 := 0 in
    let start_point := b1 self in
    yield start_point
      (fun _ => flattening_loop fuel self distance dt t0 start_point).

(** *** [geo.py] *)

(** [points[0].isclose(points[-1])] *)
Definition first_isclose_last (points : list Vec) : result bool :=
  match points with
  | [] => Raise IndexError
  | p :: _ => Ok (vec_isclose p (last points p))
  end.

(** The terms of the clockwise test over the consecutive pairs
    [zip(vertices, vertices[1:])]. *)
Definition clockwise_terms (vertices : list Vec) : list float :=
  map (fun p => (vx (snd p) - vx (fst p)) * (vy (snd p) + vy (fst p)))
      (combine vertices (tl vertices)).

(** [sum(terms)]: the terms added one after the other to 0. *)
Definition sum (terms : list float) : float := fold_left add terms 0.

(** Modelled from the spec: [has_clockwise_orientation] of [ezdxf.math] is
    not among the sources; "computes signed orientation (shoelace-style
    clockwise test)".  The test closes the polygon, ignores the z-axis and
    asks for a positive sum. *)
Definition has_clockwise_orientation (vertices : list Vec) : bool :=
  let closed :=
    match vertices with
    | [] => vertices
    | p :: _ => if vec_isclose p (last vertices p) then vertices else vertices ++ [p]
    end in
  0 <? sum (clockwise_terms closed).

(** [linear_ring(points, ccw)] *)
Definition linear_ring (points : list Vec) (ccw : bool) : result (list Vec) :=
  if (List.length points <? 3)%nat then
    Raise (ValueError (Invalid_vertex_count_n (List.length points)))
  else
    closed <- first_isclose_last points ;;
    let points :=
      if negb closed then points ++ [hd (mkVec 0 0 0) points] else points in
    let points :=
      if has_clockwise_orientation points then
        if ccw then rev points else points
      else
        if negb ccw then rev points else points in
    Ok points.

End Double.

(** ** Specifications *)

Module Spec.

Import Bezier.

(** [chain self d t v l t' v']: the vertices [l] continue a polyline from the
    vertex [v] at parameter [t] and reach the vertex [v'] at parameter [t'].
    Every vertex is the curve point at its parameter, and the midpoint of
    every chord lies closer than [d] to the curve point at the middle of the
    chord's two parameters. *)
Inductive chain (self : Bezier4P) (d : Q) : Q -> Vec -> list Vec -> Q -> Vec -> Prop :=
| chain_nil : forall t v, chain self d t v [] t v
| chain_cons : forall t v t1 v1 l t' v',
    vec_eq v1 (_get_curve_point self t1) ->
    distance_lt (lerp v v1 (1 # 2))
                (_get_curve_point self ((t + t1) * (1 # 2))) d = true ->
    chain self d t1 v1 l t' v' ->
    chain self d t v (v1 :: l) t' v'.




(** Twice the signed area of a ring by the trapezoid form of the shoelace
    formula, summed over the consecutive vertices of the ring: positive for
    a counter-clockwise ring.  It is the area the ring encloses when the
    first vertex of the ring is its last one. *)
Fixpoint signed_area2 (ring : list Vec) : Q :=
  match ring with
  | [] => 0
  | p1 :: rest =>
      match rest with
      | [] => 0
      | p2 :: _ => (vx p1 - vx p2) * (vy p1 + vy p2) + signed_area2 rest
      end
  end.

(** The cross-product form of the shoelace formula. *)
Fixpoint shoelace2 (ring : list Vec) : Q :=
  match ring with
  | [] => 0
  | p1 :: rest =>
      match rest with
      | [] => 0
      | p2 :: _ => (vx p1 * vy p2 - vx p2 * vy p1) + shoelace2 rest
      end
  end.

(** A ring is closed when its first vertex is close to its last one, the
    test [linear_ring] and [is_linear_ring] apply. *)
Definition closed_ring (ring : list Vec) : Prop :=
  match ring with
  | [] => False
  | p :: _ => vec_isclose p (last ring p) = true
  end.


(** The error taxonomy of the documentation. *)
Definition MissingKey (e : exn) : Prop :=
  match e with
  | ValueError (Required_key_not_found _) | ValueError (Missing_key_in _ _) => True
  | _ => False
  end.

Definition UnknownType (e : exn) : Prop :=
  match e with
  | TypeError (Invalid_type _) => True
  | _ => False
  end.

Definition TypeMismatch (e : exn) : Prop :=
  match e with
  | TypeError (Type_mismatch _) => True
  | _ => False
  end.

(** A mapping with the tag [t] and the coordinates [c]. *)
Definition has_tag (g : value) (tc : string * value) : Prop :=
  Py.getitem g Geo.TYPE = Ok (VStr (fst tc)) /\
  Py.getitem g Geo.COORDINATES = Ok (snd tc).

(** The set of tags after adding the tags [ts] to the set [acc]. *)
Fixpoint add_tags (acc : list value) (ts : list string) : list value :=
  match ts with
  | [] => acc
  | t :: ts' =>
      add_tags (if existsb (Py.key_eqb (VStr t)) acc then acc else acc ++ [VStr t]) ts'
  end.

(** Sample data: the wire forms of a point, of a feature without geometry
    and of a collection of such a feature; a square. *)
Definition point_12 : value :=
  VDict [(VStr Geo.TYPE, VStr Geo.POINT);
         (VStr Geo.COORDINATES, VTuple [VNum 1; VNum 2])].

Definition feature_null : value :=
  VDict [(VStr Geo.TYPE, VStr Geo.FEATURE); (VStr Geo.GEOMETRY, VNone)].

Definition features_null : value :=
  VDict [(VStr Geo.TYPE, VStr Geo.FEATURE_COLLECTION);
         (VStr Geo.FEATURES, VList [feature_null])].

Definition square : list Vec := [vec2 0 0; vec2 10 0; vec2 10 10; vec2 0 10].

Definition square_path : Geo.BoundaryPath :=
  Geo.mkBoundaryPath 0 "PolylinePath" Geo.BOUNDARY_PATH_EXTERNAL (fun _ _ => square).

Definition square_hatch : Geo.Hatch :=
  Geo.mkHatch (mkVec 0 0 0) Geo.HATCH_STYLE_OUTERMOST [square_path].

Definition arch : Bezier4P :=
  mkBezier4P (vec2 0 0) (vec2 1 2) (vec2 3 2) (vec2 4 0).

(** Translation of a curve: every control point moved by [v]. *)
Definition translate (self : Bezier4P) (v : Vec) : Bezier4P :=
  mkBezier4P (vadd (b1 self) v) (vadd (b2 self) v) (vadd (b3 self) v) (vadd (b4 self) v).

(** The four control points lie in the box from [lo] to [hi]. *)
Definition in_box (lo hi p : Vec) : Prop :=
  (vx lo <= vx p /\ vx p <= vx hi) /\
  (vy lo <= vy p /\ vy p <= vy hi) /\
  (vz lo <= vz p /\ vz p <= vz hi).

(** A mapping with a tag and coordinates, as the mapping functions build
    it. *)
Definition geometry (t : string) (c : value) : value :=
  VDict [(VStr Geo.TYPE, VStr t); (VStr Geo.COORDINATES, c)].

(** The wire form of a 2D ring, a list of pairs of numbers, and its
    compiled form, a list of vectors. *)
Definition wire_point (p : Q * Q) : value := VTuple [VNum (fst p); VNum (snd p)].

Definition wire_ring (ring : list (Q * Q)) : value := VList (map wire_point ring).

Definition compiled_ring (ring : list (Q * Q)) : value :=
  VList (map (fun p => VVec (vec2 (fst p) (snd p))) ring).

(** The tags of the mappings [mapping] builds. *)
Definition point_line_polygon (t : string) : Prop :=
  t = Geo.POINT \/ t = Geo.LINE_STRING \/ t = Geo.POLYGON.

(** The points of a ring after [linear_ring] has closed it. *)
Definition close_ring (points : list Vec) : list Vec :=
  match points with
  | [] => []
  | p :: _ => if vec_isclose p (last points p) then points else points ++ [p]
  end.



(** A ring without area, as the ring of points on one line. *)
Definition flat (ring : list Vec) : Prop := signed_area2 ring == 0.



(** The entities [mapping] has a branch for. *)
Definition dispatched (e : Geo.DXFGraphic) : bool :=
  match e with
  | Geo.Polyline_ is_2d is_3d _ => is_2d || is_3d
  | Geo.Other_ _ => false
  | _ => true
  end.

(** An entity of another kind does not claim one of the supported type
    tags. *)
Definition well_tagged (e : Geo.DXFGraphic) : Prop :=
  match e with
  | Geo.Other_ t => existsb (String.eqb t) Geo.SUPPORTED_DXF_TYPES = false
  | _ => True
  end.

(** Coordinate data nested at most [n] deep: vectors in lists or tuples. *)
Fixpoint is_coords (n : nat) (v : value) : bool :=
  match n with
  | O => match v with VVec _ => true | _ => false end
  | S n' =>
      match v with
      | VVec _ => true
      | VList l | VTuple l => forallb (is_coords n') l
      | _ => false
      end
  end.

(** The same data with [func] applied to every vector, every sequence a
    list. *)
Fixpoint transformed (n : nat) (func : Vec -> Vec) (v : value) : value :=
  match v with
  | VVec u => VVec (func u)
  | VList l | VTuple l =>
      match n with
      | O => v
      | S n' => VList (map (transformed n' func) l)
      end
  | _ => v
  end.

(** The entities made by the calls [calls], one after the other: the
    generator yields the entities of the calls that return and ends with
    the exception of the first call that raises; the calls after it are not
    made. *)
Fixpoint made {E} (calls : list (result E)) : gen E :=
  match calls with
  | [] => ([], Returned)
  | Ok e :: calls' => yield e (fun _ => made calls')
  | Raise x :: _ => ([], Raised x)
  | Pending :: _ => ([], Unfinished)
  end.

(** The calls a polygon is expanded into: the hatch if bit 1 of the method
    is set (the value 2), then the outlines of the exterior and of every
    hole if bit 0 is set (the value 1). *)
Definition polygon_calls {E} (factory : Geo.Factory E) (polygon : Z)
    (dxfattribs : value) (ring : value * list value) : list (result E) :=
  (if Z.testbit polygon 1 then
     [Geo.hatch_ factory dxfattribs (fst ring) (VList (snd ring))]
   else []) ++
  (if Z.testbit polygon 0 then
     map (Geo.lwpolyline factory dxfattribs) (fst ring :: snd ring)
   else []).

(** The boundary paths of the hatch of a polygon: the exterior with the
    flag "external", then every hole with the flag "outermost". *)
Definition flagged_paths (ring : value * list value) : list (value * Geo.path_flag) :=
  (fst ring, Geo.BOUNDARY_PATH_EXTERNAL)
  :: map (fun hole => (hole, Geo.BOUNDARY_PATH_OUTERMOST)) (snd ring).

(** The paths [paths] added to a hatch one after the other. *)
Definition add_paths {E} (factory : Geo.Factory E) (hatch : result E)
    (paths : list (value * Geo.path_flag)) : result E :=
  fold_left (fun (r : result E) (pf : value * Geo.path_flag) =>
               h <- r ;; Geo.add_polyline_path factory h (fst pf) (snd pf))
            paths hatch.

(** The compiled coordinates of a polygon: the pair of exterior and
    holes. *)
Definition compiled_polygon (ring : value * list value) : value :=
  VTuple [fst ring; VList (snd ring)].

(** [dxfattribs or dict()] *)
Definition attribs (dxfattribs : value) : value :=
  if Py.truthy dxfattribs then dxfattribs else VDict [].

(** More sample data: the box around the arch, an open triangle, a list of
    entities, a line string of two points. *)
Definition arch_lo : Vec := vec2 0 0.
Definition arch_hi : Vec := vec2 4 2.


Definition some_entities : list Geo.DXFGraphic :=
  [Geo.Point_ (vec2 0 0); Geo.Polyline_ false false (fun _ => []);
   Geo.Other_ "TEXT"; Geo.Line_ (vec2 0 0) (vec2 1 0)].

Definition two_points : list (value * value) :=
  [(VStr Geo.TYPE, VStr Geo.LINE_STRING);
   (VStr Geo.COORDINATES, VList [VVec (vec2 0 0); VVec (vec2 1 0)])].

Definition shift (v : Vec) : Vec := vadd v (vec2 1 1).

Definition double (v : Vec) : Vec := vscale v 2.

End Spec.


(** ** Specifications in binary64 arithmetic *)

Module DoubleSpec.

Import Double.

Local Open Scope float_scope.








Definition tenth : float := 0x1.999999999999ap-4.




(** The number of iterations of the loop of [flattening] that starts at the
    parameter [t0], if the loop ends, within [n] iterations, by the branch
    that sets the parameter to 1.0. *)
Fixpoint steps (n : nat) (dt t0 : float) : option nat :=
  match n with
  | O => None
  | S n' =>
      if t0 <? 1 then
        if isclose (t0 + dt) 1 0 then Some 1%nat
        else option_map S (steps n' dt (t0 + dt))
      else None
  end.

(** The loop for [segments] segments makes just as many iterations and
    ends by that branch. *)
Definition even_steps (segments : Z) : bool :=
  match steps (Z.to_nat segments) (1 / float_of_int segments) 0 with
  | Some k => (k =? Z.to_nat segments)%nat
  | None => false
  end.

(** More sample data: the arch of [Spec.arch]; a triangle of the area
    68928, wound counter-clockwise, at a distance of 10^15 from the
    origin. *)
Definition arch : Bezier4P :=
  mkBezier4P (vec2 0 0) (vec2 1 2) (vec2 3 2) (vec2 4 0).


End DoubleSpec.

(** ** Properties of [_bezier4p.py] *)

Section BezierFacts.

Import Bezier Spec.

Lemma Qltb_lt (a b : Q) : Qltb a b = true <-> a < b.
Proof.
  unfold Qltb. rewrite negb_true_iff. split; intros H.
  - apply Qnot_le_lt. intros Hle. apply Qle_bool_iff in Hle. congruence.
  - destruct (Qle_bool b a) eqn:E; auto.
    apply Qle_bool_iff in E. lra.
Qed.

Lemma Qltb_ge (a b : Q) : Qltb a b = false <-> b <= a.
Proof.
  unfold Qltb. rewrite negb_false_iff. apply Qle_bool_iff.
Qed.


Lemma vec_eq_refl (v : Vec) : vec_eq v v.
Proof. unfold vec_eq. repeat split; reflexivity. Qed.

Lemma curve_point_0 (self : Bezier4P) : vec_eq (_get_curve_point self 0) (b1 self).
Proof.
  unfold vec_eq, _get_curve_point, bernstein3, vadd, vscale; simpl.
  repeat split; ring.
Qed.

Lemma curve_point_1 (self : Bezier4P) : vec_eq (_get_curve_point self 1) (b4 self).
Proof.
  unfold vec_eq, _get_curve_point, bernstein3, vadd, vscale; simpl.
  repeat split; ring.
Qed.

Lemma vec_eq_sym (a b : Vec) : vec_eq a b -> vec_eq b a.
Proof. unfold vec_eq. intros (H1 & H2 & H3). repeat split; symmetry; assumption. Qed.

(** C8: a curve built from four control points passes through the first one
    at parameter 0 and through the fourth one at parameter 1: [point(0)] and
    [point(1)] return, and their values are those control points, component
    by component, with no tolerance. *)
Theorem point_at_ends (p0 p1 p2 p3 : Vec) :
  exists self, new [p0; p1; p2; p3] = Ok self /\
    (exists v, point self 0 = Ok v /\ vec_eq v p0) /\
    (exists v, point self 1 = Ok v /\ vec_eq v p3).
Proof.
  exists (mkBezier4P p0 p1 p2 p3). split; [reflexivity |]. split.
  - exists (_get_curve_point (mkBezier4P p0 p1 p2 p3) 0). split; [reflexivity |].
    apply (curve_point_0 (mkBezier4P p0 p1 p2 p3)).
  - exists (_get_curve_point (mkBezier4P p0 p1 p2 p3) 1). split; [reflexivity |].
    apply (curve_point_1 (mkBezier4P p0 p1 p2 p3)).
Qed.

Lemma chain_app self d t v l1 t1 v1 l2 t2 v2 :
  chain self d t v l1 t1 v1 -> chain self d t1 v1 l2 t2 v2 ->
  chain self d t v (l1 ++ l2) t2 v2.
Proof.
  induction 1; intros Hc; simpl; [assumption |].
  econstructor; eauto.
Qed.

Lemma subdiv_chain self d : forall fuel sp ep s e,
  vec_eq ep (_get_curve_point self e) ->
  exists t' v',
    chain self d s sp (fst (subdiv fuel self d sp ep s e)) t' v' /\
    (snd (subdiv fuel self d sp ep s e) = Returned -> t' = e /\ v' = ep).
Proof.
  induction fuel as [| fuel IH]; intros sp ep s e Hep; simpl.
  - exists s, sp. split; [constructor | discriminate].
  - destruct (distance_lt _ _ d) eqn:Hd.
    + exists e, ep. unfold yield; simpl. split; [| auto].
      econstructor; eauto. constructor.
    + set (m := (s + e) * (1 # 2)) in *.
      destruct (IH sp (_get_curve_point self m) s m (vec_eq_refl _))
        as (t1 & v1 & Hc1 & Hr1).
      unfold yield_from.
      destruct (snd (subdiv fuel self d sp (_get_curve_point self m) s m)) eqn:E1.
      * destruct (Hr1 eq_refl) as [-> ->].
        destruct (IH (_get_curve_point self m) ep m e Hep) as (t2 & v2 & Hc2 & Hr2).
        exists t2, v2. simpl. split; [eapply chain_app; eauto | assumption].
      * exists t1, v1. rewrite E1. split; [assumption | discriminate].
      * exists t1, v1. rewrite E1. split; [assumption | discriminate].
Qed.

Lemma flattening_loop_chain self d dt : forall fuel t0 sp,
  exists t' v', chain self d t0 sp (fst (flattening_loop fuel self d dt t0 sp)) t' v'.
Proof.
  induction fuel as [| fuel IH]; intros t0 sp; simpl.
  - exists t0, sp. constructor.
  - destruct (Qltb t0 1); [| exists t0, sp; constructor].
    assert (Hstep : forall ep t1, vec_eq ep (_get_curve_point self t1) ->
      exists t' v', chain self d t0 sp
        (fst (yield_from (subdiv fuel self d sp ep t0 t1)
                (fun _ => flattening_loop fuel self d dt t1 ep))) t' v').
    { intros ep t1 Hep.
      destruct (subdiv_chain self d fuel sp ep t0 t1 Hep) as (ta & va & Hc & Hr).
      unfold yield_from.
      destruct (snd (subdiv fuel self d sp ep t0 t1)) eqn:E; eauto.
      destruct (Hr eq_refl) as [-> ->].
      destruct (IH t1 ep) as (tb & vb & Hcb).
      exists tb, vb. simpl. eapply chain_app; eauto. }
    destruct (isclose (t0 + dt) 1 0).
    + apply Hstep. apply vec_eq_sym, curve_point_1.
    + apply Hstep. apply vec_eq_refl.
Qed.

(** C4: whatever the curve, the distance and the fuel, the vertices that
    [flattening] yields start with the first control point, which is the
    curve point at parameter 0, and continue as a chain: every next vertex
    is the curve point at some parameter, and the midpoint of the chord from
    its predecessor lies closer than [distance] to the curve point at the
    middle of the two parameters. *)
Theorem flattening_chords (fuel : nat) (self : Bezier4P) (distance : Q) (segments : Z) :
  segments <> 0%Z ->
  exists l t' v',
    fst (flattening fuel self distance segments) = b1 self :: l /\
    vec_eq (b1 self) (_get_curve_point self 0) /\
    chain self distance 0 (b1 self) l t' v'.
Proof.
  intros Hs. unfold flattening.
  destruct (Z.eqb_spec segments 0) as [-> | _]; [congruence |].
  destruct (flattening_loop_chain self distance (1 / inject_Z segments) fuel 0 (b1 self))
    as (t' & v' & Hc).
  eexists _, t', v'. unfold yield; simpl.
  split; [reflexivity |]. split; [apply vec_eq_sym, curve_point_0 | exact Hc].
Qed.











End BezierFacts.

(** ** Properties of [geo.py] *)

Section GeoFacts.

Import Geo Spec.

Local Open Scope string_scope.
Local Open Scope list_scope.

(** *** [parse] *)

(** The test [type in {...}] never holds: the fourth branch of [parse] is
    dead. *)
Lemma builtin_type_is_no_tag :
  Py.in_set VType [POINT; LINE_STRING; POLYGON; MULTI_POINT;
                   MULTI_LINE_STRING; MULTI_POLYGON] = Ok false.
Proof. reflexivity. Qed.

(** Whatever else a mapping holds, [parse] answers a [type] that is a string
    other than the three collection tags with [Invalid type]. *)
Lemma parse_other_tag (fuel : nat) (t : string) (items : list (value * value)) :
  String.eqb t FEATURE_COLLECTION = false ->
  String.eqb t GEOMETRY_COLLECTION = false ->
  String.eqb t FEATURE = false ->
  parse (S fuel) (VDict ((VStr TYPE, VStr t) :: items))
  = Raise (TypeError (Invalid_type (VStr t))).
Proof.
  intros H1 H2 H3. simpl. rewrite H1, H2, H3. reflexivity.
Qed.

(** C1: [parse] fails with [Invalid type], the error meant for unknown
    tags, on every mapping that starts with one of the six recognized
    geometry tags, whether the coordinates are present or not; and so it
    does on the wire form of a point. *)
Theorem parse_geometry_tag_unknown :
  Forall (fun t => forall fuel items,
            parse (S fuel) (VDict ((VStr TYPE, VStr t) :: items))
            = Raise (TypeError (Invalid_type (VStr t))))
         [POINT; LINE_STRING; POLYGON; MULTI_POINT; MULTI_LINE_STRING; MULTI_POLYGON]
  /\ (forall fuel, exists e, parse (S fuel) point_12 = Raise e /\ UnknownType e).
Proof.
  split.
  - repeat constructor; intros fuel items; apply parse_other_tag; reflexivity.
  - intros fuel. exists (TypeError (Invalid_type (VStr POINT))).
    split; [apply parse_other_tag; reflexivity | exact I].
Qed.

(** The parts of the error contract that [parse] keeps. *)
Lemma parse_missing_type (fuel : nat) (items : list (value * value)) :
  Py.lookup items (VStr TYPE) = None ->
  parse (S fuel) (VDict items) = Raise (ValueError (Required_key_not_found TYPE)).
Proof. intros H. simpl. rewrite H. reflexivity. Qed.

Lemma parse_feature_without_geometry (fuel : nat) :
  parse (S fuel) (VDict [(VStr TYPE, VStr FEATURE)])
  = Raise (ValueError (Missing_key_in GEOMETRY (VStr FEATURE))).
Proof. reflexivity. Qed.

(** *** Leaf iteration *)

Lemma iter_list (fuel : nat) (l : list value) :
  _iter (S fuel) (VList l)
  = ([], Raised (TypeError (Raised_by_interpreter "indices must be integers"))).
Proof. reflexivity. Qed.

(** C5: iterating a proxy whose root is a feature collection or a geometry
    collection yields nothing and raises: [_iter] is called on the list of
    members, not on each member.  The root may be the parsed collection of
    one feature. *)
Theorem iter_collection_raises (fuel : nat) (members : list value) :
  __iter__ (S (S fuel))
    (mkGeoProxy (VDict [(VStr TYPE, VStr FEATURE_COLLECTION);
                        (VStr FEATURES, VList members)]))
  = ([], Raised (TypeError (Raised_by_interpreter "indices must be integers")))
  /\ __iter__ (S (S fuel))
       (mkGeoProxy (VDict [(VStr TYPE, VStr GEOMETRY_COLLECTION);
                           (VStr GEOMETRIES, VList members)]))
     = ([], Raised (TypeError (Raised_by_interpreter "indices must be integers")))
  /\ GeoProxy_init (S (S fuel)) features_null = Ok (mkGeoProxy features_null).
Proof. repeat split; reflexivity. Qed.

(** What the iteration does below a collection: a feature yields its
    geometry, any other mapping yields itself. *)
Lemma iter_feature (fuel : nat) (geometry : value) :
  _iter (S fuel) (VDict [(VStr TYPE, VStr FEATURE); (VStr GEOMETRY, geometry)])
  = ([geometry], Returned).
Proof. reflexivity. Qed.

(** *** Hatches *)

(** C6: [_hatch_as_polygon] raises for every hatch, because the DXF
    namespace has no attribute [hath_style]; the hatch with one external
    square and the style "outermost" is no exception. *)
Theorem hatch_as_polygon_raises (hatch : Hatch) (distance : Q) (force_line_string : bool) :
  _hatch_as_polygon hatch distance force_line_string
  = Raise (DXFAttributeError "hath_style").
Proof. reflexivity. Qed.

(** With the fill style at hand the rest of the function maps the square
    hatch to a polygon without holes, and rejects a hatch without paths. *)
Lemma hatch_paths_square (distance : Q) :
  hatch_paths_as_polygon 0 (AStyle HATCH_STYLE_OUTERMOST) [square_path] distance false
  = Ok (VDict [(VStr TYPE, VStr POLYGON);
               (VStr COORDINATES, vertices (square ++ [vec2 0 0]))]).
Proof. reflexivity. Qed.

Lemma hatch_paths_empty (elevation : Q) (style : attribute) (distance : Q) (force : bool) :
  hatch_paths_as_polygon elevation style [] distance force
  = Raise (ValueError HATCH_without_any_boundary_path).
Proof. reflexivity. Qed.

(** *** The flag [force_line_string] *)

(** C10: for an iterable of entities the flag [force_line_string] of
    [from_dxf_entities] and of [proxy] changes nothing. *)
Theorem force_line_string_ignored (fuel : nat) (entities : list DXFGraphic) (distance : Q) :
  from_dxf_entities fuel (Iterable entities) distance true
  = from_dxf_entities fuel (Iterable entities) distance false
  /\ proxy fuel (Iterable entities) distance true
     = proxy fuel (Iterable entities) distance false.
Proof. split; reflexivity. Qed.

(** The flag is not idle in [collection] itself: a closed face maps to a
    line string with it and to a polygon without it. *)
Lemma collection_heeds_force_line_string :
  collection [Face_ SOLID (square ++ [vec2 0 0])] MAX_FLATTENING_DISTANCE true
  <> collection [Face_ SOLID (square ++ [vec2 0 0])] MAX_FLATTENING_DISTANCE false.
Proof. vm_compute. discriminate. Qed.

(** *** Joining mappings of one type *)

Lemma key_eqb_str (t : string) (x : value) :
  Py.key_eqb (VStr t) x = true -> x = VStr t.
Proof.
  destruct x; simpl; try discriminate.
  intros H. apply String.eqb_eq in H. congruence.
Qed.

Lemma add_tags_incl (x : value) : forall ts acc,
  In x acc -> In x (add_tags acc ts).
Proof.
  induction ts as [| t ts IH]; intros acc H; simpl; [assumption |].
  apply IH. destruct (existsb _ acc); [assumption |].
  apply in_or_app. left. assumption.
Qed.

Lemma add_tags_In (t : string) : forall ts acc,
  In t ts -> In (VStr t) (add_tags acc ts).
Proof.
  induction ts as [| t' ts IH]; intros acc H; simpl; [contradiction |].
  destruct H as [-> | H]; [| apply IH; assumption].
  apply add_tags_incl.
  destruct (existsb _ acc) eqn:E.
  - apply existsb_exists in E. destruct E as (x & Hx & Hk).
    apply key_eqb_str in Hk. subst x. assumption.
  - apply in_or_app. right. left. reflexivity.
Qed.

Lemma add_tags_same (t : string) : forall ts,
  Forall (eq t) ts -> add_tags [VStr t] ts = [VStr t].
Proof.
  induction 1 as [| t' ts <- _ IH]; simpl; [reflexivity |].
  rewrite String.eqb_refl. simpl. exact IH.
Qed.

Lemma two_members (A : Type) (a b : A) (l : list A) :
  In a l -> In b l -> a <> b -> (2 <= List.length l)%nat.
Proof.
  destruct l as [| x [| y l]]; simpl; intros Ha Hb Hab.
  - destruct Ha.
  - destruct Ha as [-> | []], Hb as [-> | []]. congruence.
  - lia.
Qed.

Lemma join_loop_ok : forall gs tcs types data,
  Forall2 has_tag gs tcs ->
  join_loop gs types data = Ok (add_tags types (map fst tcs), data ++ map snd tcs).
Proof.
  intros gs tcs types data H. revert types data.
  induction H as [| g [t c] gs tcs [Ht Hc] _ IH]; intros types data; simpl.
  - rewrite app_nil_r. reflexivity.
  - simpl in Ht, Hc. rewrite Ht. simpl. rewrite Hc. simpl.
    rewrite IH, <- app_assoc. reflexivity.
Qed.

(** C7: for mappings that carry a tag and coordinates, the join of none is
    the empty mapping; the join of mappings of one tag [t] is the mapping
    [Multi t] whose coordinates list the coordinates of the inputs in their
    order; the join of mappings of which two differ in their tag fails with
    a type mismatch. *)
Theorem join_multi_single_type (gs : list value) (tcs : list (string * value)) :
  Forall2 has_tag gs tcs ->
  (tcs = [] -> join_multi_single_type_mappings gs = Ok (VDict [])) /\
  (forall t, tcs <> [] -> Forall (fun tc => t = fst tc) tcs ->
     join_multi_single_type_mappings gs
     = Ok (VDict [(VStr TYPE, VStr ("Multi" ++ t)%string);
                  (VStr COORDINATES, VList (map snd tcs))])) /\
  (forall a b, In a tcs -> In b tcs -> fst a <> fst b ->
     exists e, join_multi_single_type_mappings gs = Raise e /\ TypeMismatch e).
Proof.
  intros H. unfold join_multi_single_type_mappings.
  rewrite (join_loop_ok gs tcs [] [] H). simpl.
  split; [| split].
  - intros ->. reflexivity.
  - intros t Hne Hall.
    destruct tcs as [| [t0 c0] tcs]; [congruence |].
    inversion Hall as [| ? ? Ht0 Hall']; subst. simpl.
    rewrite add_tags_same.
    + reflexivity.
    + apply Forall_map. exact Hall'.
  - intros a b Ha Hb Hab.
    assert (Hlen : (2 <= List.length (add_tags [] (map fst tcs)))%nat).
    { apply (two_members value (VStr (fst a)) (VStr (fst b))).
      - apply add_tags_In, in_map, Ha.
      - apply add_tags_In, in_map, Hb.
      - congruence. }
    destruct (Nat.ltb_spec 1 (List.length (add_tags [] (map fst tcs)))) as [_ | Hlt]; [| lia].
    eexists. split; [reflexivity | exact I].
Qed.

(** *** Rings *)


Lemma isclose_refl (a tol : Q) : 0 <= tol -> isclose a a tol = true.
Proof.
  intros H. unfold isclose. apply Qle_bool_iff.
  assert (E : a - a == 0) by ring.
  rewrite E. change (Qabs 0) with 0.
  eapply Qle_trans; [exact H | apply Q.le_max_r].
Qed.


Lemma vec_isclose_refl (a : Vec) : vec_isclose a a = true.
Proof.
  unfold vec_isclose. rewrite !isclose_refl; [reflexivity | | |]; discriminate.
Qed.




Lemma last_cons (A : Type) : forall (l : list A) (a p : A),
  last (a :: l) p = last l a.
Proof.
  induction l as [| b l IH]; intros a p; [reflexivity |].
  change (last (a :: b :: l) p) with (last (b :: l) p).
  rewrite (IH b p), (IH b a). reflexivity.
Qed.

(** For a ring whose last vertex equals its first one, the trapezoid form
    and the cross-product form of the shoelace formula agree. *)
Lemma signed_area2_shoelace : forall l p,
  signed_area2 (p :: l) - shoelace2 (p :: l)
  == vx p * vy p - vx (last l p) * vy (last l p).
Proof.
  induction l as [| a l IH]; intros p.
  - simpl. ring.
  - change (signed_area2 (p :: a :: l))
      with ((vx p - vx a) * (vy p + vy a) + signed_area2 (a :: l)).
    change (shoelace2 (p :: a :: l))
      with ((vx p * vy a - vx a * vy p) + shoelace2 (a :: l)).
    specialize (IH a).
    rewrite (last_cons Vec l a p).
    assert (signed_area2 (a :: l) == shoelace2 (a :: l)
              + (vx a * vy a - vx (last l a) * vy (last l a))) by lra.
    lra.
Qed.









(** *** No parsed mapping is rebuilt *)

Lemma key_eqb_str_l (t : string) (x : value) :
  Py.key_eqb x (VStr t) = true -> x = VStr t.
Proof.
  destruct x; simpl; try discriminate.
  intros H. apply String.eqb_eq in H. congruence.
Qed.

Lemma lookup_update_same (k : string) (v : value) : forall d,
  Py.lookup (Py.update d (VStr k) v) (VStr k) = Some v.
Proof.
  induction d as [| [k0 v0] d IH]; simpl.
  - rewrite String.eqb_refl. reflexivity.
  - destruct (Py.key_eqb k0 (VStr k)) eqn:E; simpl; rewrite E; [reflexivity | exact IH].
Qed.

Lemma lookup_update_other (k k' : string) (v : value) : forall d,
  String.eqb k k' = false ->
  Py.lookup (Py.update d (VStr k) v) (VStr k') = Py.lookup d (VStr k').
Proof.
  intros d Hk. induction d as [| [k0 v0] d IH]; simpl.
  - rewrite Hk. reflexivity.
  - destruct (Py.key_eqb k0 (VStr k)) eqn:E; simpl.
    + apply key_eqb_str_l in E. subst k0. simpl. rewrite Hk. reflexivity.
    + rewrite IH. reflexivity.
Qed.

Lemma mapM_head_fails (A B : Type) (f : A -> result B) (a : A) (l : list A) :
  (forall b, f a <> Ok b) -> forall bs, mapM f (a :: l) <> Ok bs.
Proof.
  intros H bs. simpl. destruct (f a) as [b | e |]; simpl; try discriminate.
  exfalso. apply (H b). reflexivity.
Qed.

Lemma truthy_iterate_nonempty (v : value) (l : list value) :
  Py.truthy v = true -> Py.iterate v = Ok l -> l <> [].
Proof.
  intros Ht Hi Hnil. subst l.
  destruct v as [| q | s | u | | t | t | d]; simpl in *; try discriminate;
    injection Hi as Hi;
    try (destruct s); try (destruct t); try (destruct d); simpl in *; congruence.
Qed.

Lemma rebuild_collection_fails (g : nat) (d : list (value * value))
    (tag key : string) (ps : list value) :
  String.eqb key TYPE = false ->
  Py.lookup d (VStr TYPE) = Some (VStr tag) ->
  (tag = FEATURE_COLLECTION /\ key = FEATURES \/
   tag = GEOMETRY_COLLECTION /\ key = GEOMETRIES) ->
  ps <> [] ->
  (forall p, In p ps -> forall y, _rebuild g p <> Ok y) ->
  forall y, _rebuild (S g) (VDict (Py.update d (VStr key) (VList ps))) <> Ok y.
Proof.
  intros Hkey Htype Htag Hne Hps y.
  destruct ps as [| p ps]; [congruence |].
  assert (Hm : forall bs, mapM (_rebuild g) (p :: ps) <> Ok bs).
  { apply mapM_head_fails. apply Hps. left. reflexivity. }
  cbn [_rebuild Py.dict bind Py.getitem].
  rewrite (lookup_update_other key TYPE _ d Hkey), Htype. cbn [bind].
  destruct Htag as [[-> ->] | [-> ->]]; cbn [Py.eq_str];
    change (String.eqb FEATURE_COLLECTION FEATURE_COLLECTION) with true;
    change (String.eqb GEOMETRY_COLLECTION FEATURE_COLLECTION) with false;
    change (String.eqb GEOMETRY_COLLECTION GEOMETRY_COLLECTION) with true;
    cbv iota; cbn [Py.getitem]; rewrite lookup_update_same; cbn [bind Py.iterate];
    destruct (mapM (_rebuild g) (p :: ps)) as [bs | e |] eqn:E; cbn [bind];
    try discriminate; exfalso; apply (Hm bs); reflexivity.
Qed.

Lemma mapM_ok (A B : Type) (f : A -> result B) : forall l bs,
  mapM f l = Ok bs ->
  List.length bs = List.length l /\
  forall b, In b bs -> exists a, In a l /\ f a = Ok b.
Proof.
  induction l as [| a l IH]; intros bs H; simpl in H.
  - injection H as <-. split; [reflexivity | contradiction].
  - destruct (f a) as [b | e |] eqn:Ea; try discriminate. cbn [bind] in H.
    destruct (mapM f l) as [bs' | e |]; try discriminate. cbn [bind] in H.
    injection H as <-. destruct (IH bs' eq_refl) as [Hl Hin].
    split; [simpl; congruence |].
    intros b0 [<- | Hb].
    + exists a. split; [left; reflexivity | assumption].
    + destruct (Hin b0 Hb) as (a0 & Ha0 & Hf). exists a0. split; [right |]; assumption.
Qed.

Lemma parsed_members_fail (fuel : nat) (v : value) (fs ps : list value) :
  (forall x m, parse fuel x = Ok m -> forall g y, _rebuild g m <> Ok y) ->
  Py.truthy v = true -> Py.iterate v = Ok fs -> mapM (parse fuel) fs = Ok ps ->
  ps <> [] /\ forall p, In p ps -> forall g y, _rebuild g p <> Ok y.
Proof.
  intros IH Htr Hit Hps.
  destruct (mapM_ok _ _ _ _ _ Hps) as [Hlen Hin].
  pose proof (truthy_iterate_nonempty v fs Htr Hit) as Hne.
  split.
  - intros ->. destruct fs; [congruence | discriminate].
  - intros p Hp g y. destruct (Hin p Hp) as (a & _ & Ha). exact (IH a p Ha g y).
Qed.

(** Every mapping that [parse] accepts is a tree of collections over
    features without geometry, and [_rebuild] returns for none of them. *)
Lemma parse_never_rebuilds : forall fuel x m,
  parse fuel x = Ok m -> forall g y, _rebuild g m <> Ok y.
Proof.
  induction fuel as [| fuel IH]; intros x m H; [discriminate |].
  destruct x as [| q | s | u | | t | t | d]; try discriminate.
  cbn [parse Py.get bind] in H.
  destruct (Py.lookup d (VStr TYPE)) as [type_ |] eqn:Ht; [| discriminate].
  destruct type_ as [| q | s | u | | t | t | d']; try discriminate.
  cbn [Py.is_None Py.eq_str] in H.
  destruct (String.eqb s FEATURE_COLLECTION) eqn:E1.
  { apply String.eqb_eq in E1. subst s.
    destruct (Py.truthy _) eqn:Htr in H; [| discriminate].
    destruct (Py.iterate _) as [fs | e |] eqn:Hit in H; try discriminate.
    cbn [bind] in H.
    destruct (mapM (parse fuel) fs) as [ps | e |] eqn:Hps; try discriminate.
    cbn [bind Py.setitem Py.hashable] in H. injection H as <-.
    destruct (parsed_members_fail fuel _ fs ps IH Htr Hit Hps) as [Hne Hfail].
    intros [| g] y; [discriminate |].
    apply (rebuild_collection_fails g d FEATURE_COLLECTION FEATURES ps); auto. }
  destruct (String.eqb s GEOMETRY_COLLECTION) eqn:E2.
  { apply String.eqb_eq in E2. subst s.
    destruct (Py.truthy _) eqn:Htr in H; [| discriminate].
    destruct (Py.iterate _) as [fs | e |] eqn:Hit in H; try discriminate.
    cbn [bind] in H.
    destruct (mapM (parse fuel) fs) as [ps | e |] eqn:Hps; try discriminate.
    cbn [bind Py.setitem Py.hashable] in H. injection H as <-.
    destruct (parsed_members_fail fuel _ fs ps IH Htr Hit Hps) as [Hne Hfail].
    intros [| g] y; [discriminate |].
    apply (rebuild_collection_fails g d GEOMETRY_COLLECTION GEOMETRIES ps); auto. }
  destruct (String.eqb s FEATURE) eqn:E3; [| discriminate].
  apply String.eqb_eq in E3. subst s.
  cbn [Py.contains bind] in H.
  destruct (Py.lookup d (VStr GEOMETRY)) as [geometry |] eqn:Hg; [| discriminate].
  assert (Hparsed : exists parsed,
            m = VDict (Py.update d (VStr GEOMETRY) parsed) /\
            forall g y, _rebuild g parsed <> Ok y).
  { destruct (Py.truthy geometry).
    - destruct (parse fuel geometry) as [parsed | e |] eqn:Hp; try discriminate.
      cbn [bind Py.setitem Py.hashable] in H. injection H as <-.
      exists parsed. split; [reflexivity | exact (IH geometry parsed Hp)].
    - cbn [bind Py.setitem Py.hashable] in H. injection H as <-.
      exists VNone. split; [reflexivity |].
      intros [| g] y; discriminate. }
  destruct Hparsed as (parsed & -> & Hfail).
  intros [| g] y; [discriminate |].
  cbn [_rebuild Py.dict bind Py.getitem].
  rewrite (lookup_update_other GEOMETRY TYPE _ d eq_refl), Ht. cbn [bind Py.eq_str].
  change (String.eqb FEATURE FEATURE_COLLECTION) with false.
  change (String.eqb FEATURE GEOMETRY_COLLECTION) with false.
  change (String.eqb FEATURE FEATURE) with true. cbv iota.
  cbn [Py.getitem]. rewrite lookup_update_same. cbn [bind].
  destruct (_rebuild g parsed) as [r | e |] eqn:Er; cbn [bind]; try discriminate.
  exfalso. exact (Hfail g r Er).
Qed.

(** C2: the wire form of a feature without geometry is accepted by [parse]
    unchanged, and [_rebuild] of the parsed mapping raises instead of
    returning the wire form; more, [_rebuild] returns for nothing that
    [parse] accepts, so no accepted input is rebuilt to itself. *)
Theorem rebuild_parse_feature_null (fuel : nat) :
  parse (S fuel) feature_null = Ok feature_null /\
  _rebuild (S (S fuel)) feature_null
  = Raise (TypeError (Raised_by_interpreter "object is not iterable")) /\
  (forall x m, parse fuel x = Ok m -> forall g y, _rebuild g m <> Ok y).
Proof.
  split; [reflexivity |]. split; [reflexivity |].
  exact (parse_never_rebuilds fuel).
Qed.

End GeoFacts.


(** ** Further properties of [_bezier4p.py] *)

Section BezierMore.

Import Bezier Spec.

Lemma scalar_hull (a b c d lo hi t : Q) :
  0 <= t -> t <= 1 ->
  lo <= a <= hi -> lo <= b <= hi -> lo <= c <= hi -> lo <= d <= hi ->
  let p := a * ((1 - t) * (1 - t) * (1 - t)) + b * (3 * ((1 - t) * (1 - t)) * t)
           + c * (3 * (1 - t) * (t * t)) + d * (t * t * t) in
  lo <= p <= hi.
Proof.
  intros H0 H1 [Ha Ha'] [Hb Hb'] [Hc Hc'] [Hd Hd'] p.
  set (A := (1 - t) * (1 - t) * (1 - t)) in *.
  set (B := 3 * ((1 - t) * (1 - t)) * t) in *.
  set (C := 3 * (1 - t) * (t * t)) in *.
  set (D := t * t * t) in *.
  assert (HA : 0 <= A).
  { unfold A. apply Qmult_le_0_compat; [apply Qmult_le_0_compat |]; lra. }
  assert (HB : 0 <= B).
  { unfold B. apply Qmult_le_0_compat; [apply Qmult_le_0_compat; [lra |] |]; [|lra].
    apply Qmult_le_0_compat; lra. }
  assert (HC : 0 <= C).
  { unfold C. apply Qmult_le_0_compat; [apply Qmult_le_0_compat; lra |].
    apply Qmult_le_0_compat; lra. }
  assert (HD : 0 <= D).
  { unfold D. apply Qmult_le_0_compat; [apply Qmult_le_0_compat |]; lra. }
  assert (Hsum : A + B + C + D == 1) by (unfold A, B, C, D; ring).
  assert (L : forall w x, 0 <= w -> lo <= x -> lo * w <= x * w).
  { intros w x Hw Hx. apply Qmult_le_compat_r; assumption. }
  assert (U : forall w x, 0 <= w -> x <= hi -> x * w <= hi * w).
  { intros w x Hw Hx. apply Qmult_le_compat_r; assumption. }
  pose proof (L A a HA Ha). pose proof (L B b HB Hb).
  pose proof (L C c HC Hc). pose proof (L D d HD Hd).
  pose proof (U A a HA Ha'). pose proof (U B b HB Hb').
  pose proof (U C c HC Hc'). pose proof (U D d HD Hd').
  assert (El : lo == lo * A + lo * B + lo * C + lo * D).
  { rewrite <- !Qmult_plus_distr_r, Hsum. ring. }
  assert (Eh : hi == hi * A + hi * B + hi * C + hi * D).
  { rewrite <- !Qmult_plus_distr_r, Hsum. ring. }
  unfold p. split; lra.
Qed.

(** X1: for a parameter in [0, 1] the curve point lies in every box that
    holds the four control points. *)
Theorem point_in_box (self : Bezier4P) (lo hi : Vec) (t : Q) :
  0 <= t -> t <= 1 ->
  in_box lo hi (b1 self) -> in_box lo hi (b2 self) ->
  in_box lo hi (b3 self) -> in_box lo hi (b4 self) ->
  exists p, point self t = Ok p /\ in_box lo hi p.
Proof.
  intros H0 H1 (X1 & Y1 & Z1) (X2 & Y2 & Z2) (X3 & Y3 & Z3) (X4 & Y4 & Z4).
  exists (_get_curve_point self t). split.
  - unfold point, check_if_in_valid_range.
    apply Qle_bool_iff in H0. apply Qle_bool_iff in H1. rewrite H0, H1. reflexivity.
  - destruct self as [[x1 y1 z1] [x2 y2 z2] [x3 y3 z3] [x4 y4 z4]].
    cbv beta iota zeta delta
      [vx vy vz vadd vscale _get_curve_point bernstein3 b1 b2 b3 b4 in_box] in *.
    repeat split.
    all: first
      [ apply (scalar_hull x1 x2 x3 x4 (vx lo) (vx hi) t H0 H1 X1 X2 X3 X4)
      | apply (scalar_hull y1 y2 y3 y4 (vy lo) (vy hi) t H0 H1 Y1 Y2 Y3 Y4)
      | apply (scalar_hull z1 z2 z3 z4 (vz lo) (vz hi) t H0 H1 Z1 Z2 Z3 Z4) ].
Qed.

(** X2: moving the four control points by [v] moves every curve point by
    [v] and leaves every tangent as it is, for every parameter. *)
Theorem translate_curve (self : Bezier4P) (v : Vec) (t : Q) :
  vec_eq (_get_curve_point (translate self v) t) (vadd (_get_curve_point self t) v) /\
  vec_eq (_get_curve_tangent (translate self v) t) (_get_curve_tangent self t).
Proof.
  destruct self as [[x1 y1 z1] [x2 y2 z2] [x3 y3 z3] [x4 y4 z4]], v as [x y z].
  unfold vec_eq.
  cbv beta iota zeta delta
    [vx vy vz vadd vscale _get_curve_point _get_curve_tangent bernstein3
     bernstein3_d1 b1 b2 b3 b4 translate].
  repeat split; ring.
Qed.

(** X3: [reverse] never fails; the reversed curve runs through the same
    points with the parameter mirrored, its tangent is the opposite one, and
    reversing twice gives the curve back. *)
Theorem reverse_mirrors (self : Bezier4P) :
  exists r,
    reverse self = Ok r /\
    control_points r = rev (control_points self) /\
    reverse r = Ok self /\
    forall t,
      vec_eq (_get_curve_point r t) (_get_curve_point self (1 - t)) /\
      vec_eq (_get_curve_tangent r t) (vscale (_get_curve_tangent self (1 - t)) (-(1))).
Proof.
  destruct self as [[x1 y1 z1] [x2 y2 z2] [x3 y3 z3] [x4 y4 z4]].
  eexists. split; [reflexivity |]. split; [reflexivity |]. split; [reflexivity |].
  intros t. unfold vec_eq.
  cbv beta iota zeta delta
    [vx vy vz vadd vscale _get_curve_point _get_curve_tangent bernstein3
     bernstein3_d1 b1 b2 b3 b4].
  repeat split; ring.
Qed.

(** X4: the tangent is the derivative of the point: a step [h] in the
    parameter moves the curve point by [h] times the tangent plus a term of
    second order in [h], which the second and third differences of the
    control polygon give. *)
Theorem tangent_is_derivative (self : Bezier4P) (t h : Q) :
  let u := vadd (vsub (b1 self) (vscale (b2 self) 2)) (b3 self) in
  let w := vadd (vsub (b2 self) (vscale (b3 self) 2)) (b4 self) in
  let bend := vadd (vscale u (3 * (1 - t))) (vscale w (3 * t)) in
  let jerk := vsub w u in
  vec_eq (_get_curve_point self (t + h))
         (vadd (vadd (_get_curve_point self t) (vscale (_get_curve_tangent self t) h))
               (vscale (vadd bend (vscale jerk h)) (h * h))).
Proof.
  destruct self as [[x1 y1 z1] [x2 y2 z2] [x3 y3 z3] [x4 y4 z4]].
  unfold vec_eq.
  cbv beta iota zeta delta
    [vx vy vz vadd vsub vscale _get_curve_point _get_curve_tangent bernstein3
     bernstein3_d1 b1 b2 b3 b4].
  repeat split; ring.
Qed.

(** X5: at the ends of the curve the tangent is three times the first and
    the last leg of the control polygon. *)
Theorem tangent_at_ends (self : Bezier4P) :
  (exists v, tangent self 0 = Ok v /\
             vec_eq v (vscale (vsub (b2 self) (b1 self)) 3)) /\
  (exists v, tangent self 1 = Ok v /\
             vec_eq v (vscale (vsub (b4 self) (b3 self)) 3)).
Proof.
  destruct self as [[x1 y1 z1] [x2 y2 z2] [x3 y3 z3] [x4 y4 z4]].
  split; eexists; (split; [reflexivity |]); unfold vec_eq;
    cbv beta iota zeta delta
      [vx vy vz vadd vsub vscale _get_curve_tangent bernstein3_d1 b1 b2 b3 b4];
    repeat split; ring.
Qed.

(** The range check: [point] and [tangent] answer exactly the parameters
    of [0, 1]; a parameter outside raises the range error. *)
Lemma point_range (self : Bezier4P) (t : Q) :
  (0 <= t <= 1 ->
     point self t = Ok (_get_curve_point self t) /\
     tangent self t = Ok (_get_curve_tangent self t)) /\
  (~ 0 <= t <= 1 ->
     point self t = Raise (ValueError t_not_in_range) /\
     tangent self t = Raise (ValueError t_not_in_range)).
Proof.
  unfold point, tangent, check_if_in_valid_range. split.
  - intros [H0 H1]. apply Qle_bool_iff in H0. apply Qle_bool_iff in H1.
    rewrite H0, H1. split; reflexivity.
  - intros H.
    destruct (Qle_bool 0 t) eqn:E0; [| split; reflexivity].
    destruct (Qle_bool t 1) eqn:E1; [| split; reflexivity].
    exfalso. apply H. split; apply Qle_bool_iff; assumption.
Qed.

Lemma curve_point_proper (self : Bezier4P) (t t' : Q) :
  t == t' -> vec_eq (_get_curve_point self t) (_get_curve_point self t').
Proof.
  intros H. unfold vec_eq.
  cbv beta iota zeta delta [vx vy vz vadd vscale _get_curve_point bernstein3].
  repeat split; rewrite H; reflexivity.
Qed.

Lemma vec_eq_trans (a b c : Vec) : vec_eq a b -> vec_eq b c -> vec_eq a c.
Proof.
  unfold vec_eq. intros (H1 & H2 & H3) (H4 & H5 & H6).
  repeat split; etransitivity; eassumption.
Qed.

(** X6: [approximate] fails with the segment count when it is below 1 and
    yields nothing then; otherwise it ends after [segments + 1] vertices,
    the first and the last being the control points 0 and 3 themselves, and
    the vertex number [i] is the curve point at [i / segments]. *)
Theorem approximate_vertices (self : Bezier4P) (segments : Z) :
  ((segments < 1)%Z ->
     approximate self segments = ([], Raised (ValueError (Invalid_segments segments)))) /\
  ((1 <= segments)%Z ->
     let vs := fst (approximate self segments) in
     snd (approximate self segments) = Returned /\
     List.length vs = S (Z.to_nat segments) /\
     hd (b4 self) vs = b1 self /\
     last vs (b1 self) = b4 self /\
     forall i, (i <= Z.to_nat segments)%nat ->
       vec_eq (nth i vs (b1 self))
              (_get_curve_point self (inject_Z (Z.of_nat i) / inject_Z segments))).
Proof.
  unfold approximate. split; intros Hs.
  - destruct (Z.ltb_spec segments 1); [reflexivity | lia].
  - destruct (Z.ltb_spec segments 1); [lia |]. cbn [fst snd].
    set (f := fun segment : nat =>
                _get_curve_point self (1 / inject_Z segments * inject_Z (Z.of_nat segment))).
    set (n := Z.to_nat segments).
    assert (Hn : (1 <= n)%nat) by (unfold n; lia).
    assert (HN : 1 <= inject_Z segments).
    { change 1 with (inject_Z 1). rewrite <- Zle_Qle. assumption. }
    split; [reflexivity |]. split; [| split; [reflexivity | split]].
    + rewrite length_app. cbn [List.length]. rewrite length_map, length_seq. lia.
    + apply last_last.
    + intros i Hi.
      destruct (Nat.eq_dec i 0) as [-> | Hi0].
      { cbn [nth app]. apply vec_eq_sym.
        eapply vec_eq_trans; [| apply curve_point_0].
        apply curve_point_proper. change (inject_Z (Z.of_nat 0)) with 0.
        unfold Qdiv. ring. }
      destruct (Nat.eq_dec i n) as [-> | Hin].
      { rewrite app_nth2; cbn [List.length]; rewrite length_map, length_seq; [| lia].
        replace (n - S (n - 1))%nat with 0%nat by lia. cbn [nth].
        apply vec_eq_sym.
        eapply vec_eq_trans; [| apply curve_point_1].
        apply curve_point_proper. unfold n. rewrite Z2Nat.id by lia.
        field. lra. }
      rewrite app_nth1 by (cbn [List.length]; rewrite length_map, length_seq; lia).
      destruct i as [| i]; [lia |]. cbn [nth].
      rewrite (nth_indep _ (b1 self) (f 0%nat))
        by (rewrite length_map, length_seq; lia).
      rewrite map_nth, seq_nth by lia.
      unfold f. apply curve_point_proper.
      replace (1 + i)%nat with (S i) by lia. field. lra.
Qed.

Lemma yield_from_returned (A : Type) (g : gen A) (rest : unit -> gen A) :
  snd (yield_from g rest) = Returned ->
  snd g = Returned /\ snd (rest tt) = Returned /\
  fst (yield_from g rest) = fst g ++ fst (rest tt).
Proof.
  unfold yield_from. destruct g as [l e]. cbn [fst snd].
  destruct e; cbn [fst snd]; intros H; try discriminate. auto.
Qed.

Lemma yield_from_stuck (A : Type) (g : gen A) (rest : unit -> gen A) :
  snd g = Unfinished -> yield_from g rest = g.
Proof. unfold yield_from. intros ->. reflexivity. Qed.

Lemma subdiv_stuck (self : Bezier4P) (d : Q) :
  d <= 0 -> forall fuel sp ep s e, subdiv fuel self d sp ep s e = ([], Unfinished).
Proof.
  intros Hd. induction fuel as [| fuel IH]; intros sp ep s e; [reflexivity |].
  cbn [subdiv]. unfold distance_lt.
  apply Qltb_ge in Hd. rewrite Hd. cbn [andb].
  rewrite yield_from_stuck; rewrite IH; reflexivity.
Qed.

(** X7: with a distance that is not positive no chord ever passes the
    test: for every amount of fuel [flattening] has yielded the first
    control point and nothing else, and has not ended. *)
Theorem flattening_needs_distance (self : Bezier4P) (distance : Q) (segments : Z) :
  distance <= 0 -> segments <> 0%Z ->
  forall fuel, flattening fuel self distance segments = ([b1 self], Unfinished).
Proof.
  intros Hd Hs fuel. unfold flattening.
  destruct (Z.eqb_spec segments 0) as [E | _]; [congruence |].
  unfold yield.
  assert (Hloop : flattening_loop fuel self distance (1 / inject_Z segments) 0 (b1 self)
                  = ([], Unfinished)).
  { destruct fuel as [| fuel]; [reflexivity |]. cbn [flattening_loop].
    change (Qltb 0 1) with true. cbv iota.
    destruct (isclose (0 + 1 / inject_Z segments) 1 0);
      rewrite yield_from_stuck; rewrite subdiv_stuck by assumption; reflexivity. }
  rewrite Hloop. reflexivity.
Qed.

Lemma subdiv_ending (self : Bezier4P) (d : Q) : forall fuel sp ep s e,
  snd (subdiv fuel self d sp ep s e) = Returned \/
  snd (subdiv fuel self d sp ep s e) = Unfinished.
Proof.
  induction fuel as [| fuel IH]; intros sp ep s e; [right; reflexivity |].
  cbn [subdiv]. destruct (distance_lt _ _ d); [left; reflexivity |].
  unfold yield_from.
  destruct (IH sp (_get_curve_point self ((s + e) * (1 # 2))) s ((s + e) * (1 # 2)))
    as [H | H]; rewrite H; [| right; exact H].
  cbn [snd]. apply IH.
Qed.

Lemma isclose_one_negative (t : Q) : t < 0 -> isclose t 1 0 = false.
Proof.
  intros Ht. unfold isclose. apply not_true_iff_false. intros H.
  apply Qle_bool_iff in H.
  assert (E1 : Qabs (t - 1) == 1 - t).
  { rewrite Qabs_neg by lra. ring. }
  assert (E2 : Qabs t == - t) by (apply Qabs_neg; lra).
  change (Qabs 1) with 1 in H. rewrite E1, E2 in H.
  unfold rel_tol in H.
  destruct (Q.max_spec (- t) 1) as [[_ M] | [_ M]]; rewrite M in H;
    match type of H with
    | _ <= Qmax ?a 0 =>
        destruct (Q.max_spec a 0) as [[_ M'] | [_ M']]; rewrite M' in H; lra
    end.
Qed.

Lemma flattening_loop_backwards (self : Bezier4P) (d dt : Q) :
  dt < 0 -> forall fuel t0 sp, t0 <= 0 ->
  snd (flattening_loop fuel self d dt t0 sp) = Unfinished.
Proof.
  intros Hdt. induction fuel as [| fuel IH]; intros t0 sp Ht0; [reflexivity |].
  cbn [flattening_loop].
  assert (Hlt : Qltb t0 1 = true) by (apply Qltb_lt; lra).
  rewrite Hlt, isclose_one_negative by lra.
  unfold yield_from.
  destruct (subdiv_ending self d fuel sp (_get_curve_point self (t0 + dt)) t0 (t0 + dt))
    as [H | H]; rewrite H; [| exact H].
  cbn [snd]. apply IH. lra.
Qed.

(** X8: [flattening] with no segments yields nothing and fails with the
    division by zero; with a negative number of segments the parameter runs
    away from 1 and the generator never ends, whatever the fuel. *)
Theorem flattening_needs_segments (self : Bezier4P) (distance : Q) (segments : Z) :
  (segments = 0%Z ->
     forall fuel, flattening fuel self distance segments = ([], Raised ZeroDivisionError)) /\
  ((segments < 0)%Z ->
     forall fuel, snd (flattening fuel self distance segments) = Unfinished).
Proof.
  split.
  - intros -> fuel. reflexivity.
  - intros Hs fuel. unfold flattening.
    destruct (Z.eqb_spec segments 0) as [E | _]; [lia |].
    unfold yield. cbn [snd].
    apply flattening_loop_backwards; [| lra].
    assert (HN : inject_Z segments < 0).
    { change 0 with (inject_Z 0). rewrite <- Zlt_Qlt. assumption. }
    assert (E : inject_Z segments * (1 / inject_Z segments) == 1) by (field; lra).
    destruct (Qlt_le_dec (1 / inject_Z segments) 0) as [Hneg | Hpos]; [assumption |].
    exfalso. nra.
Qed.

Lemma last_app_default (A : Type) (l1 l2 : list A) (d : A) :
  last (l1 ++ l2) d = last l2 (last l1 d).
Proof.
  induction l2 as [| x l2 IH] using rev_ind.
  - rewrite app_nil_r. reflexivity.
  - rewrite app_assoc, !last_last. reflexivity.
Qed.

End BezierMore.

(** ** Properties in binary64 arithmetic *)

Section DoubleFacts.

Import Double DoubleSpec.

Local Open Scope float_scope.







(** *** The end of the flattening *)

Lemma double_subdiv_returned_last (self : Bezier4P) (d : float) :
  forall fuel sp ep s e,
  snd (subdiv fuel self d sp ep s e) = Returned ->
  exists l, fst (subdiv fuel self d sp ep s e) = (l ++ [ep])%list.
Proof.
  induction fuel as [| fuel IH]; intros sp ep s e; [discriminate |].
  cbn [subdiv]. destruct (_ <? d); [intros _; exists []; reflexivity |].
  intros H. apply yield_from_returned in H. destruct H as (H1 & H2 & ->).
  destruct (IH _ _ _ _ H2) as (l2 & ->).
  eexists. rewrite app_assoc. reflexivity.
Qed.

Lemma flattening_loop_steps (self : Bezier4P) (d dt : float) :
  forall fuel n k t0 sp,
    steps n dt t0 = Some k ->
    snd (flattening_loop fuel self d dt t0 sp) = Returned ->
    last (fst (flattening_loop fuel self d dt t0 sp)) sp = b4 self /\
    (k <= List.length (fst (flattening_loop fuel self d dt t0 sp)))%nat.
Proof.
  induction fuel as [| fuel IH]; intros n k t0 sp Hs; [discriminate |].
  destruct n as [| n]; [discriminate |].
  cbn [steps] in Hs. cbn [flattening_loop].
  destruct (t0 <? 1); [| discriminate].
  destruct (isclose (t0 + dt) 1 0).
  - injection Hs as <-. intros H.
    apply yield_from_returned in H. destruct H as (H1 & H2 & ->).
    destruct (double_subdiv_returned_last _ _ _ _ _ _ _ H1) as (l & ->).
    destruct fuel as [| fuel]; [discriminate |].
    cbn [flattening_loop] in H2 |- *.
    replace (1 <? 1) with false in H2 |- * by (vm_compute; reflexivity).
    cbn [fst]. rewrite app_nil_r, last_last, length_app. cbn [List.length].
    split; [reflexivity | lia].
  - destruct (steps n dt (t0 + dt)) as [k' |] eqn:Hk; [| discriminate].
    injection Hs as <-. intros H.
    apply yield_from_returned in H. destruct H as (H1 & H2 & ->).
    destruct (double_subdiv_returned_last _ _ _ _ _ _ _ H1) as (l & ->).
    destruct (IH n k' (t0 + dt) (_get_curve_point self (t0 + dt)) Hk H2) as [IHl IHc].
    rewrite last_app_default, last_last, !length_app. cbn [List.length].
    split; [exact IHl | lia].
Qed.

Lemma even_steps_1000 :
  forallb even_steps (map Z.of_nat (seq 1 1000)) = true.
Proof. vm_compute. reflexivity. Qed.

(** X9, in binary64 arithmetic: when [flattening] with 1 to 1000 segments
    has ended, the last vertex it yielded is the fourth control point
    itself and it yielded at least [segments + 1] vertices: the number of
    segments asked for is a minimum.  For these numbers of segments the
    rounded parameter steps reach the branch that sets the parameter to 1.0
    in just [segments] iterations. *)
Theorem flattening_reaches_end (fuel : nat) (self : Bezier4P) (distance : float)
    (segments : Z) :
  (1 <= segments <= 1000)%Z ->
  snd (flattening fuel self distance segments) = Returned ->
  last (fst (flattening fuel self distance segments)) (b1 self) = b4 self /\
  (Z.to_nat segments + 1
   <= List.length (fst (flattening fuel self distance segments)))%nat.
Proof.
  intros Hs. unfold flattening.
  destruct (Z.eqb_spec segments 0) as [E | _]; [lia |].
  unfold yield. cbn [fst snd]. intros H.
  assert (Heven : even_steps segments = true).
  { pose proof even_steps_1000 as Hall. rewrite forallb_forall in Hall.
    apply Hall. apply in_map_iff. exists (Z.to_nat segments).
    split; [lia | apply in_seq; lia]. }
  unfold even_steps in Heven.
  destruct (steps (Z.to_nat segments) (1 / float_of_int segments) 0) as [k |] eqn:Hk;
    [| discriminate].
  apply Nat.eqb_eq in Heven. subst k.
  destruct (flattening_loop_steps self distance (1 / float_of_int segments)
              fuel _ _ 0 (b1 self) Hk H) as [Hl Hc].
  split.
  - change (b1 self :: ?l) with ([b1 self] ++ l)%list.
    rewrite last_app_default. exact Hl.
  - cbn [List.length]. lia.
Qed.

Lemma flattening_reaches_end_witness :
  (1 <= 4 <= 1000)%Z /\ snd (flattening 8 arch tenth 4) = Returned /\
  last (fst (flattening 8 arch tenth 4)) (b1 arch) = b4 arch /\
  (Z.to_nat 4 + 1 <= List.length (fst (flattening 8 arch tenth 4)))%nat.
Proof.
  assert (H1 : (1 <= 4 <= 1000)%Z) by lia.
  assert (H2 : snd (flattening 8 arch tenth 4) = Returned) by (vm_compute; reflexivity).
  split; [assumption |]. split; [assumption |].
  exact (flattening_reaches_end 8 arch tenth 4 H1 H2).
Defined.

End DoubleFacts.

(** ** Further properties of [geo.py] *)

Section GeoMore.

Import Geo Spec.

Local Open Scope string_scope.
Local Open Scope list_scope.

(** *** Polygons on the wire and compiled *)

Lemma Vector_list_wire (ring : list (Q * Q)) :
  Py.Vector_list (wire_ring ring) = Ok (compiled_ring ring).
Proof.
  unfold Py.Vector_list, wire_ring, compiled_ring. cbn [Py.iterate bind].
  assert (H : mapM Py.Vector (map wire_point ring)
              = Ok (map (fun p => VVec (vec2 (fst p) (snd p))) ring)).
  { induction ring as [| p ring IH]; [reflexivity |].
    cbn [map mapM]. unfold wire_point at 1. cbn [Py.Vector bind].
    rewrite IH. reflexivity. }
  rewrite H. reflexivity.
Qed.

Lemma Vector_lists_wire (rings : list (list (Q * Q))) :
  mapM Py.Vector_list (map wire_ring rings) = Ok (map compiled_ring rings).
Proof.
  induction rings as [| r rings IH]; [reflexivity |].
  cbn [map mapM]. rewrite Vector_list_wire. cbn [bind]. rewrite IH. reflexivity.
Qed.

Lemma xy_list_compiled (ring : list (Q * Q)) :
  xy_list (compiled_ring ring) = Ok (wire_ring ring).
Proof.
  unfold xy_list, wire_ring, compiled_ring. cbn [Py.iterate bind].
  assert (H : mapM Py.xy (map (fun p => VVec (vec2 (fst p) (snd p))) ring)
              = Ok (map wire_point ring)).
  { induction ring as [| p ring IH]; [reflexivity |].
    cbn [map mapM]. unfold Py.xy at 1. cbn [Py.attr_x Py.attr_y bind vec2 vx vy].
    rewrite IH. reflexivity. }
  rewrite H. reflexivity.
Qed.

Lemma xy_lists_compiled (rings : list (list (Q * Q))) :
  mapM xy_list (map compiled_ring rings) = Ok (map wire_ring rings).
Proof.
  induction rings as [| r rings IH]; [reflexivity |].
  cbn [map mapM]. rewrite xy_list_compiled. cbn [bind]. rewrite IH. reflexivity.
Qed.

Lemma parse_polygon_cases (p : Q * Q) (exterior : list (Q * Q))
    (holes : list (list (Q * Q))) :
  _parse_polygon (wire_ring (p :: exterior))
  = Ok (VTuple [compiled_ring (p :: exterior); VList []]) /\
  _parse_polygon (VList (wire_ring (p :: exterior) :: map wire_ring holes))
  = Ok (VTuple [compiled_ring (p :: exterior); VList (map compiled_ring holes)]) /\
  _parse_polygon (VList []) = Raise (ValueError Invalid_coordinate_sequence) /\
  _parse_polygon (VList (wire_ring [] :: map wire_ring holes))
  = Raise (ValueError Invalid_coordinate_sequence).
Proof.
  split; [| split; [| split; reflexivity]].
  - unfold _parse_polygon.
    change (_is_coordinate_sequence (wire_ring (p :: exterior))) with (@Ok bool true).
    cbn [bind]. rewrite Vector_list_wire. reflexivity.
  - unfold _parse_polygon.
    change (_is_coordinate_sequence
              (VList (wire_ring (p :: exterior) :: map wire_ring holes)))
      with (@Ok bool false).
    cbn [bind Py.first Py.rest tl]. rewrite Vector_list_wire.
    cbn [bind Py.iterate]. rewrite Vector_lists_wire. reflexivity.
Qed.

(** X10: [_parse_polygon] takes a flat ring of 2D points for the exterior
    of a polygon without holes, and a list of rings for the exterior
    followed by the holes; either way the result is the pair of the compiled
    exterior and the list of the compiled holes.  Coordinates without a
    first point are rejected. *)
Theorem parse_polygon_pair (p : Q * Q) (exterior : list (Q * Q))
    (holes : list (list (Q * Q))) :
  _parse_polygon (wire_ring (p :: exterior))
  = Ok (VTuple [compiled_ring (p :: exterior); VList []]) /\
  _parse_polygon (VList (wire_ring (p :: exterior) :: map wire_ring holes))
  = Ok (VTuple [compiled_ring (p :: exterior); VList (map compiled_ring holes)]) /\
  _parse_polygon (VList []) = Raise (ValueError Invalid_coordinate_sequence) /\
  _parse_polygon (VList (wire_ring [] :: map wire_ring holes))
  = Raise (ValueError Invalid_coordinate_sequence).
Proof. exact (parse_polygon_cases p exterior holes). Qed.

Lemma rebuild_polygon_steps (fuel : nat) (exterior holes : value) :
  _rebuild (S fuel) (geometry POLYGON (VTuple [exterior; holes]))
  = (c <- xy_list exterior ;;
     c' <- (if Py.truthy holes then
              hs <- Py.iterate holes ;;
              hs' <- mapM xy_list hs ;;
              Ok (VList (c :: hs'))
            else Ok c) ;;
     Ok (geometry POLYGON c')).
Proof. reflexivity. Qed.

(** X11: [_rebuild] undoes [_parse_polygon]: a polygon mapping that holds
    the compiled pair is rebuilt with the flat exterior ring when there are
    no holes and with the list of exterior and holes otherwise, so a wire
    form with holes comes back as it was and the wrapper around a lone
    exterior is dropped. *)
Theorem rebuild_parse_polygon (fuel : nat) (p : Q * Q) (exterior : list (Q * Q))
    (holes : list (list (Q * Q))) :
  let rings := VList (wire_ring (p :: exterior) :: map wire_ring holes) in
  exists pair,
    _parse_polygon rings = Ok pair /\
    _rebuild (S fuel) (geometry POLYGON pair)
    = Ok (geometry POLYGON
            (match holes with
             | [] => wire_ring (p :: exterior)
             | _ => rings
             end)).
Proof.
  intros rings. eexists. split; [apply parse_polygon_cases |].
  rewrite rebuild_polygon_steps, xy_list_compiled. cbn [bind].
  destruct holes as [| h holes]; [reflexivity |].
  cbn [map Py.truthy List.length Nat.eqb negb Py.iterate bind mapM].
  rewrite xy_list_compiled. cbn [bind].
  rewrite xy_lists_compiled. reflexivity.
Qed.

Lemma xy_list_vertices (vs : list Vec) :
  xy_list (vertices vs)
  = Ok (VList (map (fun v => VTuple [VNum (vx v); VNum (vy v)]) vs)).
Proof.
  unfold xy_list, vertices. cbn [Py.iterate bind].
  assert (H : mapM Py.xy (map VVec vs)
              = Ok (map (fun v => VTuple [VNum (vx v); VNum (vy v)]) vs)).
  { induction vs as [| v vs IH]; [reflexivity |].
    cbn [map mapM]. unfold Py.xy at 1. cbn [Py.attr_x Py.attr_y bind].
    rewrite IH. reflexivity. }
  rewrite H. reflexivity.
Qed.

Lemma rebuild_line_steps (fuel : nat) (t : string) (c : value) :
  t = LINE_STRING \/ t = MULTI_POINT \/ t = MULTI_LINE_STRING ->
  _rebuild (S fuel) (geometry t c) = (c' <- xy_list c ;; Ok (geometry t c')).
Proof. intros [-> | [-> | ->]]; reflexivity. Qed.

(** X12: what [_rebuild] does with the other geometries: the vector of a
    point and the vectors of a line string or of a multi point come out as
    pairs [(x, y)], the third coordinate dropped; a multi line string that
    holds a line raises, because the pairs are asked of the lines and not of
    their vectors; the coordinates of a multi polygon come out as they
    are. *)
Theorem rebuild_geometries (fuel : nat) :
  (forall v,
     _rebuild (S fuel) (geometry POINT (VVec v))
     = Ok (geometry POINT (VTuple [VNum (vx v); VNum (vy v)]))) /\
  (forall t vs, t = LINE_STRING \/ t = MULTI_POINT ->
     _rebuild (S fuel) (geometry t (vertices vs))
     = Ok (geometry t (VList (map (fun v => VTuple [VNum (vx v); VNum (vy v)]) vs)))) /\
  (forall line lines,
     _rebuild (S fuel) (geometry MULTI_LINE_STRING (VList (vertices line :: lines)))
     = Raise (AttributeError "x")) /\
  (forall c,
     _rebuild (S fuel) (geometry MULTI_POLYGON c) = Ok (geometry MULTI_POLYGON c)).
Proof.
  split; [reflexivity |]. split; [| split; [| reflexivity]].
  - intros t vs Ht. rewrite rebuild_line_steps by tauto.
    rewrite xy_list_vertices. reflexivity.
  - intros line lines. rewrite rebuild_line_steps by tauto. reflexivity.
Qed.

(** *** Rings and the choice between line string and polygon *)

Lemma linear_ring_value (points : list Vec) (ccw : bool) :
  (3 <= List.length points)%nat ->
  linear_ring points ccw
  = Ok (if Bool.eqb (has_clockwise_orientation (close_ring points)) ccw
        then rev (close_ring points) else close_ring points).
Proof.
  intros Hlen. unfold linear_ring.
  destruct (Nat.ltb_spec (List.length points) 3) as [Hlt | _]; [lia |].
  destruct points as [| p rest]; [simpl in Hlen; lia |].
  unfold first_isclose_last, close_ring. cbn [bind hd].
  destruct (vec_isclose p (last (p :: rest) p)); cbn [negb];
    match goal with
    | |- context [has_clockwise_orientation ?l] =>
        destruct (has_clockwise_orientation l)
    end; destruct ccw; reflexivity.
Qed.

Lemma close_ring_closed (points : list Vec) :
  points <> [] -> closed_ring (close_ring points).
Proof.
  destruct points as [| p rest]; [congruence |]. intros _.
  unfold close_ring. destruct (vec_isclose p (last (p :: rest) p)) eqn:E.
  - exact E.
  - change ((p :: rest) ++ [p]) with (p :: (rest ++ [p])).
    unfold closed_ring. change (p :: rest ++ [p]) with ((p :: rest) ++ [p]).
    rewrite last_last. apply vec_isclose_refl.
Qed.




Lemma line_string_or_polygon_cases (points : list Vec) (force_line_string : bool) :
  match _line_string_or_polygon_mapping points force_line_string with
  | Ok m =>
      (2 <= List.length points)%nat /\
      ((m = line_string_mapping points /\
        (force_line_string = true \/ List.length points = 2%nat \/
         ~ closed_ring points)) \/
       (force_line_string = false /\ (3 <= List.length points)%nat /\
        closed_ring points /\
        exists ring, linear_ring points true = Ok ring /\
                     m = geometry POLYGON (vertices ring)))
  | Raise e => (List.length points < 2)%nat /\ e = ValueError Invalid_vertex_count
  | Pending => False
  end.
Proof.
  unfold _line_string_or_polygon_mapping.
  destruct (Nat.ltb_spec (List.length points) 2) as [Hlt | Hge]; [auto |].
  destruct (Nat.eqb_spec (List.length points) 2) as [E2 | N2]; cbn [orb].
  { split; [lia |]. left. auto. }
  destruct force_line_string.
  { split; [lia |]. left. auto. }
  destruct points as [| p rest]; [simpl in Hge; lia |].
  unfold is_linear_ring, first_isclose_last. cbn [bind].
  destruct (vec_isclose p (last (p :: rest) p)) eqn:Ec.
  - unfold polygon_mapping.
    assert (Hlen : (3 <= List.length (p :: rest))%nat) by lia.
    rewrite (linear_ring_value _ true Hlen). cbn [bind].
    split; [lia |]. right.
    repeat split; try assumption. eexists. split; reflexivity.
  - split; [lia |]. left. split; [reflexivity |].
    right. right. unfold closed_ring. congruence.
Qed.

(** X14: [_line_string_or_polygon_mapping] fails for fewer than 2 points
    and for nothing else.  It answers with the line string of the points
    when the line string is forced, when there are just 2 points or when the
    first point is not close to the last one, and otherwise with the polygon
    of the ring [linear_ring] makes of the points. *)
Theorem line_string_or_polygon (points : list Vec) (force_line_string : bool) :
  match _line_string_or_polygon_mapping points force_line_string with
  | Ok m =>
      (2 <= List.length points)%nat /\
      ((m = line_string_mapping points /\
        (force_line_string = true \/ List.length points = 2%nat \/
         ~ closed_ring points)) \/
       (force_line_string = false /\ (3 <= List.length points)%nat /\
        closed_ring points /\
        exists ring, linear_ring points true = Ok ring /\
                     m = geometry POLYGON (vertices ring)))
  | Raise e => (List.length points < 2)%nat /\ e = ValueError Invalid_vertex_count
  | Pending => False
  end.
Proof. exact (line_string_or_polygon_cases points force_line_string). Qed.

(** *** Collections of entities *)

Lemma mapping_shape (e : DXFGraphic) (d : Q) (force : bool) :
  match mapping e d force with
  | Ok m => exists t c, m = geometry t c /\ point_line_polygon t
  | Raise _ => True
  | Pending => False
  end.
Proof.
  assert (H : forall points,
            match _line_string_or_polygon_mapping points force with
            | Ok m => exists t c, m = geometry t c /\ point_line_polygon t
            | Raise _ => True
            | Pending => False
            end).
  { intros points. pose proof (line_string_or_polygon_cases points force) as H.
    destruct (_line_string_or_polygon_mapping points force) as [m | e' |]; auto.
    destruct H as [_ [[-> _] | (_ & _ & _ & ring & _ & ->)]].
    - exists LINE_STRING, (vertices points). split; [reflexivity |].
      right. left. reflexivity.
    - exists POLYGON, (vertices ring). split; [reflexivity |].
      right. right. reflexivity. }
  destruct e as [location | start end_ | is2 is3 fl | fl | k fl | k vs | h | t];
    cbn [mapping]; try apply H; try exact I.
  - exists POINT, (VVec location). split; [reflexivity | left; reflexivity].
  - exists LINE_STRING, (vertices [start; end_]). split; [reflexivity |].
    right. left. reflexivity.
  - destruct (is3 || is2); [apply H | exact I].
Qed.

Lemma mapM_raise (A B : Type) (f : A -> result B) : forall l e,
  mapM f l = Raise e -> exists a, In a l /\ f a = Raise e.
Proof.
  induction l as [| a l IH]; intros e H; [discriminate |].
  cbn [mapM] in H. destruct (f a) as [b | e' |] eqn:Ea; cbn [bind] in H.
  - destruct (mapM f l) as [bs | e' |]; cbn [bind] in H; try discriminate.
    injection H as ->. destruct (IH e eq_refl) as (x & Hx & Hf).
    exists x. split; [right |]; assumption.
  - injection H as ->. exists a. split; [left; reflexivity | assumption].
  - discriminate.
Qed.

Lemma mapM_pending (A B : Type) (f : A -> result B) : forall l,
  mapM f l = Pending -> exists a, In a l /\ f a = Pending.
Proof.
  induction l as [| a l IH]; intros H; [discriminate |].
  cbn [mapM] in H. destruct (f a) as [b | e' |] eqn:Ea; cbn [bind] in H.
  - destruct (mapM f l) as [bs | e' |]; cbn [bind] in H; try discriminate.
    destruct (IH eq_refl) as (x & Hx & Hf). exists x. split; [right |]; assumption.
  - discriminate.
  - exists a. split; [left; reflexivity | assumption].
Qed.

Lemma mappings_shape (d : Q) (force : bool) : forall es ms,
  mapM (fun e => mapping e d force) es = Ok ms ->
  exists tcs,
    ms = map (fun tc => geometry (fst tc) (snd tc)) tcs /\
    List.length tcs = List.length es /\
    Forall (fun tc : string * value => point_line_polygon (fst tc)) tcs.
Proof.
  induction es as [| e es IH]; intros ms H; cbn [mapM] in H.
  - injection H as <-. exists []. repeat split. constructor.
  - pose proof (mapping_shape e d force) as Hs.
    destruct (mapping e d force) as [m | e' |]; cbn [bind] in H; try discriminate.
    destruct (mapM _ es) as [ms' | e' |]; cbn [bind] in H; try discriminate.
    injection H as <-. destruct Hs as (t & c & -> & Ht).
    destruct (IH ms' eq_refl) as (tcs & -> & Hl & HF).
    exists ((t, c) :: tcs). repeat split; [simpl; congruence | constructor; assumption].
Qed.

Lemma has_tag_geometry (tcs : list (string * value)) :
  Forall2 has_tag (map (fun tc => geometry (fst tc) (snd tc)) tcs) tcs.
Proof.
  induction tcs as [| [t c] tcs IH]; constructor; [split; reflexivity | exact IH].
Qed.

Lemma types_of_ok : forall ms tcs types,
  Forall2 has_tag ms tcs -> types_of ms types = Ok (add_tags types (map fst tcs)).
Proof.
  intros ms tcs types H. revert types.
  induction H as [| g [t c] gs tcs [Ht _] _ IH]; intros types; cbn [types_of map fst].
  - reflexivity.
  - cbn [fst] in Ht. rewrite Ht. cbn [bind Py.set_add Py.hashable]. apply IH.
Qed.

Lemma add_tags_one_kind (t : string) (ts : list string) :
  (List.length (add_tags [VStr t] ts) <= 1)%nat -> Forall (eq t) ts.
Proof.
  intros Hlen. apply Forall_forall. intros x Hx.
  destruct (string_dec t x) as [E | N]; [assumption | exfalso].
  assert (H2 : (2 <= List.length (add_tags [VStr t] ts))%nat).
  { apply (two_members value (VStr t) (VStr x)).
    - apply add_tags_incl. left. reflexivity.
    - apply add_tags_In. assumption.
    - congruence. }
  lia.
Qed.

Lemma add_tags_two_kinds (ts : list string) :
  (2 <= List.length (add_tags [] ts))%nat ->
  exists a b, In a ts /\ In b ts /\ a <> b.
Proof.
  destruct ts as [| t ts]; [simpl; lia |].
  cbn [add_tags existsb app]. intros Hlen.
  destruct (Forall_Exists_dec (eq t) (string_dec t) ts) as [Hall | Hex].
  - rewrite (add_tags_same t ts Hall) in Hlen. simpl in Hlen. lia.
  - apply Exists_exists in Hex. destruct Hex as (x & Hx & Hne).
    exists t, x. repeat split; [left; reflexivity | right; assumption | assumption].
Qed.

Lemma collection_cases (es : list DXFGraphic) (d : Q) (force : bool) :
  match collection es d force with
  | Ok m =>
      exists tcs,
        mapM (fun e => mapping e d force) es
        = Ok (map (fun tc => geometry (fst tc) (snd tc)) tcs) /\
        Forall (fun tc : string * value => point_line_polygon (fst tc)) tcs /\
        ((tcs = [] /\ m = VDict []) \/
         (exists t, tcs <> [] /\ Forall (fun tc => t = fst tc) tcs /\
                    m = geometry ("Multi" ++ t) (VList (map snd tcs))) \/
         ((exists a b, In a tcs /\ In b tcs /\ fst a <> fst b) /\
          m = geometry_collection_mapping
                (map (fun tc => geometry (fst tc) (snd tc)) tcs)))
  | Raise e => exists x, In x es /\ mapping x d force = Raise e
  | Pending => False
  end.
Proof.
  unfold collection.
  destruct (mapM (fun e => mapping e d force) es) as [ms | e |] eqn:Em; cbn [bind].
  - destruct (mappings_shape d force es ms Em) as (tcs & -> & _ & HF).
    pose proof (has_tag_geometry tcs) as Htag.
    rewrite (types_of_ok _ tcs [] Htag). cbn [bind].
    destruct (Nat.ltb_spec 1 (List.length (add_tags [] (map fst tcs)))) as [Hmany | Hfew].
    + exists tcs. split; [reflexivity |]. split; [assumption |]. right. right.
      split; [| reflexivity].
      destruct (add_tags_two_kinds _ Hmany) as (a & b & Ha & Hb & Hab).
      apply in_map_iff in Ha. destruct Ha as (x & <- & Hx).
      apply in_map_iff in Hb. destruct Hb as (y & <- & Hy).
      exists x, y. auto.
    + unfold join_multi_single_type_mappings.
      rewrite (join_loop_ok _ tcs [] [] Htag). cbn [bind app].
      destruct (Nat.ltb_spec 1 (List.length (add_tags [] (map fst tcs)))) as [Hmany | _];
        [lia |].
      destruct tcs as [| [t c] tcs].
      * exists []. split; [reflexivity |]. split; [constructor |]. left. auto.
      * cbn [map fst add_tags existsb app] in Hfew |- *.
        pose proof (add_tags_one_kind t (map fst tcs) Hfew) as Hall.
        rewrite (add_tags_same t _ Hall). cbn [List.length Nat.eqb hd Py.str_add bind].
        exists ((t, c) :: tcs). split; [reflexivity |]. split; [assumption |].
        right. left. exists t. split; [discriminate |]. split; [| reflexivity].
        constructor; [reflexivity |].
        apply Forall_forall. intros x Hx.
        rewrite Forall_forall in Hall. apply Hall, in_map, Hx.
  - apply (mapM_raise _ _ _ es e Em).
  - destruct (mapM_pending _ _ _ es Em) as (x & _ & Hx).
    pose proof (mapping_shape x d force) as Hs. rewrite Hx in Hs. exact Hs.
Qed.

(** X15: [collection] fails only with the error of mapping one of its
    entities, never with a type mismatch.  Of no entity it makes the empty
    mapping, of entities that map to one tag [t] the mapping [Multi t] with
    their coordinates in order, and of entities that map to different tags
    the geometry collection of their mappings in order. *)
Theorem collection_joins (es : list DXFGraphic) (d : Q) (force : bool) :
  match collection es d force with
  | Ok m =>
      exists tcs,
        mapM (fun e => mapping e d force) es
        = Ok (map (fun tc => geometry (fst tc) (snd tc)) tcs) /\
        Forall (fun tc : string * value => point_line_polygon (fst tc)) tcs /\
        ((tcs = [] /\ m = VDict []) \/
         (exists t, tcs <> [] /\ Forall (fun tc => t = fst tc) tcs /\
                    m = geometry ("Multi" ++ t) (VList (map snd tcs))) \/
         ((exists a b, In a tcs /\ In b tcs /\ fst a <> fst b) /\
          m = geometry_collection_mapping
                (map (fun tc => geometry (fst tc) (snd tc)) tcs)))
  | Raise e => exists x, In x es /\ mapping x d force = Raise e
  | Pending => False
  end.
Proof. exact (collection_cases es d force). Qed.

Lemma parse_geometry_fails (fuel : nat) (t : string) (c : value) :
  point_line_polygon t -> forall m, parse fuel (geometry t c) <> Ok m.
Proof.
  intros Ht m. destruct fuel as [| fuel]; [discriminate |].
  unfold geometry. rewrite parse_other_tag; [discriminate | | |];
    destruct Ht as [-> | [-> | ->]]; reflexivity.
Qed.

Lemma parse_multi_fails (fuel : nat) (t : string) (c : value) :
  forall m, parse fuel (geometry ("Multi" ++ t) c) <> Ok m.
Proof.
  intros m. destruct fuel as [| fuel]; [discriminate |].
  unfold geometry. rewrite parse_other_tag; [discriminate | | |]; reflexivity.
Qed.

Lemma parse_geometry_collection_steps (fuel : nat) (m : value) (ms : list value) :
  parse (S fuel) (geometry_collection_mapping (m :: ms))
  = (parsed <- mapM (parse fuel) (m :: ms) ;;
     Ok (geometry_collection_mapping parsed)).
Proof. reflexivity. Qed.

(** X17: no proxy comes out of [from_dxf_entities], nor out of [proxy]:
    whatever the entity or the entities, the distance and the flag, the
    mapping made of them is one that [parse] does not accept, or making it
    has failed before. *)
Theorem proxy_never_built (fuel : nat) (entity : entity_or_entities) (distance : Q)
    (force_line_string : bool) (p : GeoProxy) :
  from_dxf_entities fuel entity distance force_line_string <> Ok p /\
  proxy fuel entity distance force_line_string <> Ok p.
Proof.
  assert (H : from_dxf_entities fuel entity distance force_line_string <> Ok p);
    [| split; exact H].
  unfold from_dxf_entities, GeoProxy_init.
  destruct entity as [e | es].
  - pose proof (mapping_shape e distance force_line_string) as Hs.
    destruct (mapping e distance force_line_string) as [m | e' |]; cbn [bind];
      try discriminate.
    destruct Hs as (t & c & -> & Ht).
    destruct (parse fuel (geometry t c)) as [r | e' |] eqn:Ep; cbn [bind];
      try discriminate.
    exfalso. exact (parse_geometry_fails fuel t c Ht r Ep).
  - pose proof (collection_cases es distance false) as Hc.
    destruct (collection es distance false) as [m | e' |]; cbn [bind]; try discriminate.
    destruct Hc as (tcs & _ & HF & [[_ ->] | [(t & _ & _ & ->) | [(a & _ & Ha & _) ->]]]).
    + destruct fuel; discriminate.
    + destruct (parse fuel (geometry ("Multi" ++ t) _)) as [r | e' |] eqn:Ep;
        cbn [bind]; try discriminate.
      exfalso. exact (parse_multi_fails fuel t _ r Ep).
    + destruct tcs as [| [t c] tcs]; [destruct Ha |].
      inversion HF as [| ? ? Ht _]; subst. cbn [fst] in Ht.
      destruct fuel as [| fuel]; [discriminate |].
      cbn [map fst snd]. rewrite parse_geometry_collection_steps. cbn [mapM].
      destruct (parse fuel (geometry t c)) as [r | e' |] eqn:Ep; cbn [bind];
        try discriminate.
      exfalso. exact (parse_geometry_fails fuel t c Ht r Ep).
Qed.

(** *** Iterating and filtering *)

Lemma yield_from_end_length (A : Type) (g : gen A) :
  List.length (fst (yield_from g (fun _ => ([], Returned)))) = List.length (fst g).
Proof.
  unfold yield_from. destruct g as [l e]. cbn [fst snd].
  destruct e; cbn [fst]; [rewrite app_nil_r |..]; reflexivity.
Qed.

Lemma iter_length (fuel : nat) : forall root,
  (List.length (fst (_iter fuel root)) <= 1)%nat.
Proof.
  induction fuel as [| fuel IH]; intros root; [simpl; lia |].
  cbn [_iter].
  destruct (Py.getitem root TYPE) as [type_ | e |]; [| simpl; lia | simpl; lia].
  destruct (Py.eq_str type_ FEATURE_COLLECTION).
  { destruct (Py.getitem root FEATURES) as [features | e |]; [| simpl; lia | simpl; lia].
    rewrite yield_from_end_length. apply IH. }
  destruct (Py.eq_str type_ GEOMETRY_COLLECTION).
  { destruct (Py.getitem root GEOMETRIES) as [geometries | e |]; [| simpl; lia | simpl; lia].
    rewrite yield_from_end_length. apply IH. }
  destruct (Py.eq_str type_ FEATURE).
  { destruct (Py.getitem root GEOMETRY) as [geometry | e |]; simpl; lia. }
  simpl. lia.
Qed.

(** X18: the iteration over a proxy never yields more than one mapping,
    whatever the tree: a collection is never walked member by member. *)
Theorem iter_at_most_one (fuel : nat) (self : GeoProxy) :
  (List.length (fst (__iter__ fuel self)) <= 1)%nat.
Proof.
  unfold __iter__. rewrite yield_from_end_length. apply iter_length.
Qed.

Lemma mapping_no_type_error (e : DXFGraphic) (d : Q) (force : bool) (m : message) :
  dispatched e = true -> mapping e d force <> Raise (TypeError m).
Proof.
  assert (H : forall points,
            _line_string_or_polygon_mapping points force <> Raise (TypeError m)).
  { intros points E.
    pose proof (line_string_or_polygon_cases points force) as Hc.
    rewrite E in Hc. destruct Hc as [_ Hc]. discriminate. }
  destruct e as [location | start end_ | is2 is3 fl | fl | k fl | k vs | h | t];
    cbn [mapping dispatched]; intros Hd; try apply H; try discriminate.
  rewrite orb_comm, Hd. apply H.
Qed.

Lemma mapping_type_error (e : DXFGraphic) (d : Q) (force : bool) :
  dispatched e = false -> exists m, mapping e d force = Raise (TypeError m).
Proof.
  destruct e as [location | start end_ | is2 is3 fl | fl | k fl | k vs | h | t];
    cbn [mapping dispatched]; intros Hd; try discriminate.
  - rewrite orb_comm, Hd. eexists. reflexivity.
  - eexists. reflexivity.
Qed.

Lemma gfilter_filter (es : list DXFGraphic) :
  Forall well_tagged es -> gfilter es = filter dispatched es.
Proof.
  induction 1 as [| e es He _ IH]; [reflexivity |].
  cbn [gfilter filter]. rewrite IH.
  destruct e as [location | start end_ | is2 is3 fl | fl | k fl | k vs | h | t];
    try reflexivity.
  - destruct k; reflexivity.
  - destruct k; reflexivity.
  - cbn [dxftype dispatched]. cbn [well_tagged] in He.
    rewrite He.
    destruct (String.eqb t "POLYLINE") eqn:E; [| reflexivity].
    apply String.eqb_eq in E. subst t. discriminate.
Qed.

(** X19: of entities with honest type tags [gfilter] keeps, in their order,
    exactly those [mapping] has a branch for: no entity kept makes [mapping]
    raise a type error, and every entity dropped would. *)
Theorem gfilter_keeps_mappable (es : list DXFGraphic) :
  Forall well_tagged es ->
  gfilter es = filter dispatched es /\
  Forall (fun e => forall d force m, mapping e d force <> Raise (TypeError m))
         (gfilter es) /\
  (forall e, In e es -> ~ In e (gfilter es) ->
     forall d force, exists m, mapping e d force = Raise (TypeError m)).
Proof.
  intros H. rewrite (gfilter_filter es H). split; [reflexivity |]. split.
  - apply Forall_forall. intros e He d force m.
    apply filter_In in He. apply mapping_no_type_error. tauto.
  - intros e He Hn d force. apply mapping_type_error.
    destruct (dispatched e) eqn:E; [| reflexivity].
    exfalso. apply Hn. apply filter_In. tauto.
Qed.

(** *** Transforming the coordinates *)

Lemma convert_coords (func : Vec -> Vec) : forall n fuel v,
  (n < fuel)%nat -> is_coords n v = true ->
  convert fuel func v = Ok (transformed n func v).
Proof.
  induction n as [| n IH]; intros fuel v Hfuel Hv;
    (destruct fuel as [| fuel]; [lia |]).
  - destruct v; try discriminate. reflexivity.
  - assert (Hl : forall l, forallb (is_coords n) l = true ->
              mapM (convert fuel func) l = Ok (map (transformed n func) l)).
    { induction l as [| x l IHl]; [reflexivity |].
      cbn [forallb]. intros Hx. apply andb_true_iff in Hx. destruct Hx as [Hx Hxs].
      cbn [mapM map]. rewrite (IH fuel x) by (lia || assumption).
      cbn [bind]. rewrite (IHl Hxs). reflexivity. }
    destruct v as [| q | s | u | | l | l | d]; try discriminate.
    + reflexivity.
    + cbn [is_coords] in Hv. cbn [convert Py.iterate bind transformed].
      rewrite (Hl l Hv). reflexivity.
    + cbn [is_coords] in Hv. cbn [convert Py.iterate bind transformed].
      rewrite (Hl l Hv). reflexivity.
Qed.

Lemma transformed_coords (func : Vec -> Vec) : forall n v,
  is_coords n v = true -> is_coords n (transformed n func v) = true.
Proof.
  induction n as [| n IH]; intros v Hv.
  - destruct v; try discriminate. reflexivity.
  - assert (Hl : forall l, forallb (is_coords n) l = true ->
              forallb (is_coords n) (map (transformed n func) l) = true).
    { induction l as [| x l IHl]; [reflexivity |].
      cbn [forallb map]. intros Hx. apply andb_true_iff in Hx. destruct Hx as [Hx Hxs].
      rewrite (IH x Hx), (IHl Hxs). reflexivity. }
    destruct v as [| q | s | u | | l | l | d]; try discriminate;
      [reflexivity | |]; cbn [is_coords] in Hv; cbn [transformed is_coords]; auto.
Qed.

Lemma transformed_twice (f g : Vec -> Vec) : forall n v,
  is_coords n v = true ->
  transformed n g (transformed n f v) = transformed n (fun u => g (f u)) v.
Proof.
  induction n as [| n IH]; intros v Hv.
  - destruct v; try discriminate. reflexivity.
  - assert (Hl : forall l, forallb (is_coords n) l = true ->
              map (transformed n g) (map (transformed n f) l)
              = map (transformed n (fun u => g (f u))) l).
    { induction l as [| x l IHl]; [reflexivity |].
      cbn [forallb map]. intros Hx. apply andb_true_iff in Hx. destruct Hx as [Hx Hxs].
      rewrite (IH x Hx), (IHl Hxs). reflexivity. }
    destruct v as [| q | s | u | | l | l | d]; try discriminate;
      [reflexivity | |]; cbn [is_coords] in Hv; cbn [transformed];
      rewrite (Hl l Hv); reflexivity.
Qed.

Lemma update_update (k : string) (v v' : value) : forall d,
  Py.update (Py.update d (VStr k) v) (VStr k) v' = Py.update d (VStr k) v'.
Proof.
  induction d as [| [k0 v0] d IH]; cbn [Py.update].
  - cbn [Py.key_eqb]. rewrite String.eqb_refl. reflexivity.
  - destruct (Py.key_eqb k0 (VStr k)) eqn:E; cbn [Py.update]; rewrite E;
      [reflexivity | rewrite IH; reflexivity].
Qed.

Lemma transform_leaf (fuel n : nat) (func : Vec -> Vec) (d : list (value * value))
    (t : string) (c : value) :
  Py.lookup d (VStr TYPE) = Some (VStr t) ->
  String.eqb t FEATURE_COLLECTION = false ->
  String.eqb t GEOMETRY_COLLECTION = false ->
  String.eqb t FEATURE = false ->
  Py.lookup d (VStr COORDINATES) = Some c ->
  is_coords n c = true -> (n < fuel)%nat ->
  _transform (S fuel) func (mkGeoProxy (VDict d))
  = Ok (mkGeoProxy (VDict (Py.update d (VStr COORDINATES) (transformed n func c)))).
Proof.
  intros Ht H1 H2 H3 Hc Hn Hfuel.
  unfold _transform. cbn [_root _transform_at Py.getitem].
  rewrite Ht. cbn [bind Py.eq_str]. rewrite H1, H2, H3.
  unfold process. cbn [Py.getitem]. rewrite Hc. cbn [bind].
  rewrite (convert_coords func n fuel c Hfuel Hn). reflexivity.
Qed.

(** X20: for a proxy whose root is a geometry with coordinate data (vectors
    in lists or tuples, nested at most [n] deep) [_transform] ends, given
    fuel for the depth, and replaces every vector by its image under the
    function, every sequence coming out as a list; the type and every other
    item of the mapping stay as they are. *)
Theorem transform_coordinates (fuel n : nat) (func : Vec -> Vec)
    (d : list (value * value)) (t : string) (c : value) :
  Py.lookup d (VStr TYPE) = Some (VStr t) ->
  String.eqb t FEATURE_COLLECTION = false ->
  String.eqb t GEOMETRY_COLLECTION = false ->
  String.eqb t FEATURE = false ->
  Py.lookup d (VStr COORDINATES) = Some c ->
  is_coords n c = true -> (n < fuel)%nat ->
  exists d',
    _transform (S fuel) func (mkGeoProxy (VDict d)) = Ok (mkGeoProxy (VDict d')) /\
    Py.lookup d' (VStr COORDINATES) = Some (transformed n func c) /\
    (forall k, String.eqb COORDINATES k = false ->
       Py.lookup d' (VStr k) = Py.lookup d (VStr k)) /\
    map fst d' = map fst d.
Proof.
  intros Ht H1 H2 H3 Hc Hn Hfuel.
  exists (Py.update d (VStr COORDINATES) (transformed n func c)).
  split; [apply (transform_leaf fuel n func d t c); assumption |].
  split; [apply lookup_update_same |].
  split; [intros k Hk; apply lookup_update_other; assumption |].
  clear - Hc. revert Hc. induction d as [| [k0 v0] d IH]; [discriminate |].
  cbn [Py.lookup Py.update]. destruct (Py.key_eqb k0 (VStr COORDINATES)).
  - reflexivity.
  - intros Hc. cbn [map fst]. rewrite (IH Hc). reflexivity.
Qed.

(** X21: on such a proxy two transformations in a row do what the one
    transformation by the composed function does. *)
Theorem transform_composes (fuel n : nat) (f g : Vec -> Vec)
    (d : list (value * value)) (t : string) (c : value) :
  Py.lookup d (VStr TYPE) = Some (VStr t) ->
  String.eqb t FEATURE_COLLECTION = false ->
  String.eqb t GEOMETRY_COLLECTION = false ->
  String.eqb t FEATURE = false ->
  Py.lookup d (VStr COORDINATES) = Some c ->
  is_coords n c = true -> (n < fuel)%nat ->
  exists p,
    _transform (S fuel) f (mkGeoProxy (VDict d)) = Ok p /\
    _transform (S fuel) g p
    = _transform (S fuel) (fun u => g (f u)) (mkGeoProxy (VDict d)).
Proof.
  intros Ht H1 H2 H3 Hc Hn Hfuel.
  eexists. split; [apply (transform_leaf fuel n f d t c); assumption |].
  rewrite (transform_leaf fuel n (fun u => g (f u)) d t c) by assumption.
  rewrite (transform_leaf fuel n g _ t (transformed n f c)); try assumption.
  - rewrite update_update, transformed_twice by assumption. reflexivity.
  - rewrite lookup_update_other by reflexivity. assumption.
  - apply lookup_update_same.
  - apply transformed_coords. assumption.
Qed.

(** *** From mappings back to entities *)

Lemma land_2 (p : Z) : (Z.land p 2 =? 0)%Z = negb (Z.testbit p 1).
Proof.
  assert (E : Z.land p 2 = if Z.testbit p 1 then 2%Z else 0%Z).
  { apply Z.bits_inj'. intros n Hn. rewrite Z.land_spec.
    change 2%Z with (2 ^ 1)%Z. rewrite Z.pow2_bits_eqb by lia.
    destruct (Z.eqb_spec 1 n) as [<- | Hne].
    - rewrite andb_true_r. destruct (Z.testbit p 1); [| rewrite Z.bits_0; reflexivity].
      rewrite Z.pow2_bits_true by lia. reflexivity.
    - rewrite andb_false_r. destruct (Z.testbit p 1); [| rewrite Z.bits_0; reflexivity].
      rewrite Z.pow2_bits_false by lia. reflexivity. }
  rewrite E. destruct (Z.testbit p 1); reflexivity.
Qed.

Lemma land_1 (p : Z) : (Z.land p 1 =? 0)%Z = negb (Z.testbit p 0).
Proof.
  assert (E : Z.land p 1 = if Z.testbit p 0 then 1%Z else 0%Z).
  { apply Z.bits_inj'. intros n Hn. rewrite Z.land_spec.
    change 1%Z with (2 ^ 0)%Z. rewrite Z.pow2_bits_eqb by lia.
    destruct (Z.eqb_spec 0 n) as [<- | Hne].
    - rewrite andb_true_r. destruct (Z.testbit p 0); [| rewrite Z.bits_0; reflexivity].
      rewrite Z.pow2_bits_true by lia. reflexivity.
    - rewrite andb_false_r. destruct (Z.testbit p 0); [| rewrite Z.bits_0; reflexivity].
      rewrite Z.pow2_bits_false by lia. reflexivity. }
  rewrite E. destruct (Z.testbit p 0); reflexivity.
Qed.

Lemma made_app (E : Type) (l1 l2 : list (result E)) :
  made (l1 ++ l2) = yield_from (made l1) (fun _ => made l2).
Proof.
  induction l1 as [| [e | x |] l1 IH]; cbn [app made]; try reflexivity.
  - unfold yield_from. cbn [fst snd app]. destruct (made l2); reflexivity.
  - rewrite IH. unfold yield, yield_from.
    destruct (made l1) as [m en]. cbn [fst snd]. destruct en; reflexivity.
Qed.

Lemma for_each_made (A E : Type) (f : A -> result E) : forall l,
  for_each (fun a => yield_call (f a)) l = made (map f l).
Proof.
  induction l as [| a l IH]; [reflexivity |].
  cbn [for_each map made]. rewrite IH. unfold yield_call.
  destruct (f a); reflexivity.
Qed.

Lemma yield_from_end (A : Type) (g : gen A) :
  yield_from g (fun _ => ([], Returned)) = g.
Proof.
  destruct g as [l e]. unfold yield_from. cbn [fst snd].
  destruct e; [rewrite app_nil_r |  |]; reflexivity.
Qed.

Lemma polygon_expands (E : Type) (factory : Factory E) (polygon : Z) (A : value)
    (ring : value * list value) :
  polygon_ factory polygon A (fst ring) (VList (snd ring))
  = made (polygon_calls factory polygon A ring).
Proof.
  unfold polygon_, polygon_calls. rewrite land_2, land_1, !negb_involutive.
  rewrite made_app.
  assert (Hh : forall b : bool,
            (if b then yield_call (hatch_ factory A (fst ring) (VList (snd ring)))
             else ([], Returned))
            = made (if b then [hatch_ factory A (fst ring) (VList (snd ring))] else [])).
  { intros [|]; [| reflexivity]. unfold yield_call. cbn [made].
    destruct (hatch_ factory A (fst ring) (VList (snd ring))); reflexivity. }
  rewrite Hh. f_equal.
  destruct (Z.testbit polygon 0); [| reflexivity].
  cbn [list_add bind raising]. rewrite for_each_made. reflexivity.
Qed.

Lemma polygons_expand (E : Type) (factory : Factory E) (polygon : Z) (A : value) :
  forall rings,
  for_each (fun data =>
              raising (eh <- unpack2 data ;;
                       Ok (polygon_ factory polygon A (fst eh) (snd eh))))
           (map compiled_polygon rings)
  = made (flat_map (polygon_calls factory polygon A) rings).
Proof.
  induction rings as [| ring rings IH]; [reflexivity |].
  cbn [map for_each flat_map]. rewrite IH, made_app.
  unfold compiled_polygon at 1. cbn [unpack2 Py.iterate bind raising fst snd].
  rewrite polygon_expands. reflexivity.
Qed.

Lemma add_paths_raise (E : Type) (factory : Factory E) (x : exn) : forall ps,
  add_paths factory (Raise x) ps = Raise x.
Proof.
  unfold add_paths. induction ps as [| pf ps IH]; [reflexivity |].
  cbn [fold_left bind]. exact IH.
Qed.

Lemma add_paths_pending (E : Type) (factory : Factory E) : forall ps,
  add_paths factory Pending ps = Pending.
Proof.
  unfold add_paths. induction ps as [| pf ps IH]; [reflexivity |].
  cbn [fold_left bind]. exact IH.
Qed.

Lemma add_holes_paths (E : Type) (factory : Factory E) : forall holes h,
  add_holes factory h holes
  = add_paths factory (Ok h) (map (fun hole => (hole, BOUNDARY_PATH_OUTERMOST)) holes).
Proof.
  induction holes as [| hole holes IH]; intros h; [reflexivity |].
  cbn [add_holes map]. unfold add_paths. cbn [fold_left bind fst snd].
  destruct (add_polyline_path factory h hole BOUNDARY_PATH_OUTERMOST) as [h' | x |];
    cbn [bind].
  - apply IH.
  - symmetry. apply add_paths_raise.
  - symmetry. apply add_paths_pending.
Qed.

Lemma hatch_paths (E : Type) (factory : Factory E) (A : value)
    (ring : value * list value) :
  hatch_ factory A (fst ring) (VList (snd ring))
  = add_paths factory
      (h <- factory_new factory "HATCH" A ;;
       set_hatch_style factory h HATCH_STYLE_OUTERMOST)
      (flagged_paths ring).
Proof.
  unfold hatch_, flagged_paths.
  destruct (factory_new factory "HATCH" A) as [h0 | x |]; cbn [bind];
    [| symmetry; apply add_paths_raise | symmetry; apply add_paths_pending].
  destruct (set_hatch_style factory h0 HATCH_STYLE_OUTERMOST) as [h1 | x |]; cbn [bind];
    [| symmetry; apply add_paths_raise | symmetry; apply add_paths_pending].
  unfold add_paths at 1. cbn [fold_left bind fst snd].
  destruct (add_polyline_path factory h1 (fst ring) BOUNDARY_PATH_EXTERNAL)
    as [h2 | x |]; cbn [bind Py.iterate].
  - apply add_holes_paths.
  - symmetry. apply add_paths_raise.
  - symmetry. apply add_paths_pending.
Qed.

(** X22: [to_dxf_entities] expands a polygon by the bits of the method
    [polygon], whatever the factory does: if [polygon & 2] is set it makes
    one hatch, and then, if [polygon & 1] is set, the outline of the
    exterior and of every hole; it stops at the first call that raises.
    The hatch is made by asking the factory for a HATCH, setting its style
    to "outermost" and adding the exterior flagged external and then every
    hole flagged outermost.  A multi polygon is expanded polygon by polygon.
    So the code makes outlines for the method 1 and the hatch for the
    method 2; its docstring says the reverse, 1 for the hatch and 2 for the
    outlines. *)
Theorem to_dxf_entities_polygon (E : Type) (factory : Factory E) (fuel : nat)
    (polygon : Z) (dxfattribs : value)
    (ring : value * list value) (rings : list (value * list value)) :
  to_dxf_entities factory (S fuel)
    (mkGeoProxy (geometry POLYGON (compiled_polygon ring))) polygon dxfattribs
  = made (polygon_calls factory polygon (attribs dxfattribs) ring) /\
  to_dxf_entities factory (S fuel)
    (mkGeoProxy (geometry MULTI_POLYGON (VList (map compiled_polygon rings))))
    polygon dxfattribs
  = made (flat_map (polygon_calls factory polygon (attribs dxfattribs)) rings) /\
  hatch_ factory (attribs dxfattribs) (fst ring) (VList (snd ring))
  = add_paths factory
      (h <- factory_new factory "HATCH" (attribs dxfattribs) ;;
       set_hatch_style factory h HATCH_STYLE_OUTERMOST)
      (flagged_paths ring).
Proof.
  split; [| split; [| apply hatch_paths]].
  - unfold to_dxf_entities. fold (attribs dxfattribs).
    change (__iter__ (S fuel) (mkGeoProxy (geometry POLYGON (compiled_polygon ring))))
      with ([geometry POLYGON (compiled_polygon ring)], Returned).
    cbv iota beta. cbn [for_each].
    change (Py.get (geometry POLYGON (compiled_polygon ring)) TYPE)
      with (Ok (VStr POLYGON)).
    change (Py.get (geometry POLYGON (compiled_polygon ring)) COORDINATES)
      with (Ok (compiled_polygon ring)).
    cbn [bind raising].
    change (entity factory polygon (attribs dxfattribs) (VStr POLYGON)
              (compiled_polygon ring))
      with (polygon_ factory polygon (attribs dxfattribs) (fst ring) (VList (snd ring))).
    rewrite polygon_expands, !yield_from_end. reflexivity.
  - unfold to_dxf_entities. fold (attribs dxfattribs).
    change (__iter__ (S fuel)
              (mkGeoProxy (geometry MULTI_POLYGON (VList (map compiled_polygon rings)))))
      with ([geometry MULTI_POLYGON (VList (map compiled_polygon rings))], Returned).
    cbv iota beta. cbn [for_each].
    change (Py.get (geometry MULTI_POLYGON (VList (map compiled_polygon rings))) TYPE)
      with (Ok (VStr MULTI_POLYGON)).
    change (Py.get (geometry MULTI_POLYGON (VList (map compiled_polygon rings))) COORDINATES)
      with (Ok (VList (map compiled_polygon rings))).
    cbn [bind raising].
    change (entity factory polygon (attribs dxfattribs) (VStr MULTI_POLYGON)
              (VList (map compiled_polygon rings)))
      with (for_each (fun data =>
                        raising (eh <- unpack2 data ;;
                                 Ok (polygon_ factory polygon (attribs dxfattribs)
                                       (fst eh) (snd eh))))
                     (map compiled_polygon rings)).
    rewrite polygons_expand, !yield_from_end. reflexivity.
Qed.

Lemma entity_of_leaf (E : Type) (factory : Factory E) (fuel : nat) (polygon : Z)
    (dxfattribs : value) (t : string) (c : value) :
  String.eqb t FEATURE_COLLECTION = false ->
  String.eqb t GEOMETRY_COLLECTION = false ->
  String.eqb t FEATURE = false ->
  to_dxf_entities factory (S fuel) (mkGeoProxy (geometry t c)) polygon dxfattribs
  = entity factory polygon (attribs dxfattribs) (VStr t) c.
Proof.
  intros H1 H2 H3. unfold to_dxf_entities. fold (attribs dxfattribs).
  assert (Hi : __iter__ (S fuel) (mkGeoProxy (geometry t c))
               = ([geometry t c], Returned)).
  { unfold __iter__, geometry. cbn [_root _iter Py.getitem Py.lookup Py.key_eqb bind].
    change (String.eqb TYPE TYPE) with true. cbv iota. cbn [Py.eq_str].
    rewrite H1, H2, H3. reflexivity. }
  rewrite Hi. cbv iota beta. cbn [for_each].
  assert (Ht : Py.get (geometry t c) TYPE = Ok (VStr t)) by reflexivity.
  assert (Hc : Py.get (geometry t c) COORDINATES = Ok c) by reflexivity.
  rewrite Ht, Hc. cbn [bind raising].
  rewrite !yield_from_end. reflexivity.
Qed.

Lemma made_one (E : Type) (r : result E) : yield_call r = made [r].
Proof. unfold yield_call. destruct r; reflexivity. Qed.

(** X23: [to_dxf_entities] makes one point of a point, one outline of a
    line string, one point per coordinate of a multi point and one outline
    per line of a multi line string, in their order, by the calls [point]
    and [lwpolyline] on the factory, and ends with the exception of the
    first call that raises; of a feature it makes the entities of its
    geometry; for a feature without geometry it raises, and so it does,
    having made nothing, for a collection. *)
Theorem to_dxf_entities_leaves (E : Type) (factory : Factory E) (fuel : nat)
    (polygon : Z) (dxfattribs c : value) (ds : list value) :
  let A := attribs dxfattribs in
  let run root :=
    to_dxf_entities factory (S (S fuel)) (mkGeoProxy root) polygon dxfattribs in
  run (geometry POINT c) = made [Geo.point factory A c] /\
  run (geometry LINE_STRING c) = made [lwpolyline factory A c] /\
  run (geometry MULTI_POINT (VList ds)) = made (map (Geo.point factory A) ds) /\
  run (geometry MULTI_LINE_STRING (VList ds)) = made (map (lwpolyline factory A) ds) /\
  run (VDict [(VStr TYPE, VStr FEATURE); (VStr GEOMETRY, geometry MULTI_POINT (VList ds))])
  = made (map (Geo.point factory A) ds) /\
  run feature_null = ([], Raised (AttributeError "get")) /\
  run (VDict [(VStr TYPE, VStr FEATURE_COLLECTION); (VStr FEATURES, VList ds)])
  = ([], Raised (TypeError (Raised_by_interpreter "indices must be integers"))).
Proof.
  intros A run. unfold run.
  refine (conj _ (conj _ (conj _ (conj _ (conj _ (conj _ _)))))).
  - rewrite entity_of_leaf by reflexivity. apply made_one.
  - rewrite entity_of_leaf by reflexivity. apply made_one.
  - rewrite entity_of_leaf by reflexivity.
    change (entity factory polygon (attribs dxfattribs) (VStr MULTI_POINT) (VList ds))
      with (for_each (fun data => yield_call (Geo.point factory (attribs dxfattribs) data)) ds).
    apply for_each_made.
  - rewrite entity_of_leaf by reflexivity.
    change (entity factory polygon (attribs dxfattribs) (VStr MULTI_LINE_STRING) (VList ds))
      with (for_each (fun data => yield_call (lwpolyline factory (attribs dxfattribs) data)) ds).
    apply for_each_made.
  - unfold to_dxf_entities. fold (attribs dxfattribs). fold A.
    change (__iter__ (S (S fuel))
              (mkGeoProxy (VDict [(VStr TYPE, VStr FEATURE);
                                  (VStr GEOMETRY, geometry MULTI_POINT (VList ds))])))
      with ([geometry MULTI_POINT (VList ds)], Returned).
    cbv iota beta. cbn [for_each].
    change (Py.get (geometry MULTI_POINT (VList ds)) TYPE) with (Ok (VStr MULTI_POINT)).
    change (Py.get (geometry MULTI_POINT (VList ds)) COORDINATES) with (Ok (VList ds)).
    cbn [bind raising].
    change (entity factory polygon A (VStr MULTI_POINT) (VList ds))
      with (for_each (fun data => yield_call (Geo.point factory A data)) ds).
    rewrite !yield_from_end. apply for_each_made.
  - reflexivity.
  - reflexivity.
Qed.

Lemma mapping_lines (d : Q) (force : bool) : forall lines : list (Vec * Vec),
  mapM (fun e => mapping e d force) (map (fun se => Line_ (fst se) (snd se)) lines)
  = Ok (map (fun tc => geometry (fst tc) (snd tc))
            (map (fun se => (LINE_STRING, vertices [fst se; snd se])) lines)).
Proof.
  induction lines as [| se lines IH]; [reflexivity |].
  cbn [map mapM mapping bind]. rewrite IH. reflexivity.
Qed.

(** X16: [collection] maps lines, one at least, to the multi line string
    that lists the two end points of every line, in the order of the
    lines. *)
Theorem collection_of_lines (se : Vec * Vec) (lines : list (Vec * Vec)) (d : Q)
    (force : bool) :
  collection (map (fun se => Line_ (fst se) (snd se)) (se :: lines)) d force
  = Ok (geometry MULTI_LINE_STRING
          (VList (map (fun se => vertices [fst se; snd se]) (se :: lines)))).
Proof.
  unfold collection. rewrite mapping_lines. cbn [bind].
  set (tcs := map (fun se => (LINE_STRING, vertices [fst se; snd se])) (se :: lines)).
  pose proof (has_tag_geometry tcs) as Htag.
  assert (Hall : Forall (eq LINE_STRING) (map fst tcs)).
  { unfold tcs. rewrite map_map. apply Forall_forall. intros x Hx.
    apply in_map_iff in Hx. destruct Hx as (y & <- & _). reflexivity. }
  assert (Htypes : add_tags [] (map fst tcs) = [VStr LINE_STRING]).
  { unfold tcs in Hall |- *. cbn [map fst add_tags existsb app] in Hall |- *.
    apply add_tags_same. inversion Hall; assumption. }
  rewrite (types_of_ok _ tcs [] Htag), Htypes. cbn [bind List.length Nat.ltb Nat.leb].
  unfold join_multi_single_type_mappings.
  rewrite (join_loop_ok _ tcs [] [] Htag), Htypes.
  cbn [bind app List.length Nat.ltb Nat.leb Nat.eqb hd Py.str_add].
  unfold tcs. rewrite map_map. reflexivity.
Qed.

(** *** Parsing what was parsed *)

Lemma mapM_fixed (A : Type) (f : A -> result A) : forall l,
  (forall a, In a l -> f a = Ok a) -> mapM f l = Ok l.
Proof.
  induction l as [| a l IH]; intros H; [reflexivity |].
  cbn [mapM]. rewrite (H a) by (left; reflexivity). cbn [bind].
  rewrite IH by (intros b Hb; apply H; right; assumption). reflexivity.
Qed.

Lemma update_truthy (d : list (value * value)) (k v : value) :
  Py.truthy (VDict (Py.update d k v)) = true.
Proof.
  destruct d as [| [k0 v0] d]; cbn [Py.update]; [reflexivity |].
  destruct (Py.key_eqb k0 k); reflexivity.
Qed.

Lemma parse_collection_fixed (fuel : nat) (d : list (value * value))
    (tag key : string) (v : value) (fs ps : list value) :
  (forall x m, parse fuel x = Ok m -> parse fuel m = Ok m /\ Py.truthy m = true) ->
  String.eqb key TYPE = false ->
  Py.lookup d (VStr TYPE) = Some (VStr tag) ->
  (tag = FEATURE_COLLECTION /\ key = FEATURES \/
   tag = GEOMETRY_COLLECTION /\ key = GEOMETRIES) ->
  Py.truthy v = true -> Py.iterate v = Ok fs -> mapM (parse fuel) fs = Ok ps ->
  parse (S fuel) (VDict (Py.update d (VStr key) (VList ps)))
  = Ok (VDict (Py.update d (VStr key) (VList ps))).
Proof.
  intros IH Hkey Htype Htag Htr Hit Hps.
  destruct (mapM_ok _ _ _ _ _ Hps) as [Hlen Hin].
  pose proof (truthy_iterate_nonempty v fs Htr Hit) as Hne.
  assert (Hfix : mapM (parse fuel) ps = Ok ps).
  { apply mapM_fixed. intros p Hp. destruct (Hin p Hp) as (a & _ & Ha).
    apply (IH a p Ha). }
  assert (Htrue : Py.truthy (VList ps) = true).
  { destruct ps; [destruct fs; [congruence | discriminate] | reflexivity]. }
  cbn [parse Py.get bind].
  rewrite (lookup_update_other key TYPE _ d Hkey), Htype.
  cbn [Py.is_None Py.eq_str].
  destruct Htag as [[-> ->] | [-> ->]];
    change (String.eqb FEATURE_COLLECTION FEATURE_COLLECTION) with true;
    change (String.eqb GEOMETRY_COLLECTION FEATURE_COLLECTION) with false;
    change (String.eqb GEOMETRY_COLLECTION GEOMETRY_COLLECTION) with true;
    cbv iota; rewrite lookup_update_same, Htrue; cbn [Py.iterate bind];
    rewrite Hfix; cbn [bind Py.setitem Py.hashable];
    rewrite update_update; reflexivity.
Qed.

Lemma parse_fixed : forall fuel x m,
  parse fuel x = Ok m -> parse fuel m = Ok m /\ Py.truthy m = true.
Proof.
  induction fuel as [| fuel IH]; intros x m H; [discriminate |].
  destruct x as [| q | s | u | | t | t | d]; try discriminate.
  cbn [parse Py.get bind] in H.
  destruct (Py.lookup d (VStr TYPE)) as [type_ |] eqn:Ht; [| discriminate].
  destruct type_ as [| q | s | u | | t | t | d']; try discriminate.
  cbn [Py.is_None Py.eq_str] in H.
  destruct (String.eqb s FEATURE_COLLECTION) eqn:E1.
  { apply String.eqb_eq in E1. subst s.
    destruct (Py.truthy _) eqn:Htr in H; [| discriminate].
    destruct (Py.iterate _) as [fs | e |] eqn:Hit in H; try discriminate.
    cbn [bind] in H.
    destruct (mapM (parse fuel) fs) as [ps | e |] eqn:Hps; try discriminate.
    cbn [bind Py.setitem Py.hashable] in H. injection H as <-.
    split; [| apply update_truthy].
    eapply (parse_collection_fixed fuel d FEATURE_COLLECTION FEATURES); eauto. }
  destruct (String.eqb s GEOMETRY_COLLECTION) eqn:E2.
  { apply String.eqb_eq in E2. subst s.
    destruct (Py.truthy _) eqn:Htr in H; [| discriminate].
    destruct (Py.iterate _) as [fs | e |] eqn:Hit in H; try discriminate.
    cbn [bind] in H.
    destruct (mapM (parse fuel) fs) as [ps | e |] eqn:Hps; try discriminate.
    cbn [bind Py.setitem Py.hashable] in H. injection H as <-.
    split; [| apply update_truthy].
    eapply (parse_collection_fixed fuel d GEOMETRY_COLLECTION GEOMETRIES); eauto. }
  destruct (String.eqb s FEATURE) eqn:E3; [| discriminate].
  apply String.eqb_eq in E3. subst s.
  cbn [Py.contains bind] in H.
  destruct (Py.lookup d (VStr GEOMETRY)) as [geometry |] eqn:Hg; [| discriminate].
  assert (Hparsed : exists parsed,
            m = VDict (Py.update d (VStr GEOMETRY) parsed) /\
            (if Py.truthy parsed then parse fuel parsed else Ok VNone) = Ok parsed).
  { destruct (Py.truthy geometry).
    - destruct (parse fuel geometry) as [parsed | e |] eqn:Hp; try discriminate.
      cbn [bind Py.setitem Py.hashable] in H. injection H as <-.
      exists parsed. split; [reflexivity |].
      destruct (IH geometry parsed Hp) as [Hfix ->]. exact Hfix.
    - cbn [bind Py.setitem Py.hashable] in H. injection H as <-.
      exists VNone. split; reflexivity. }
  destruct Hparsed as (parsed & -> & Hfix).
  split; [| apply update_truthy].
  cbn [parse Py.get bind].
  rewrite (lookup_update_other GEOMETRY TYPE _ d eq_refl), Ht.
  cbn [Py.is_None Py.eq_str].
  change (String.eqb FEATURE FEATURE_COLLECTION) with false.
  change (String.eqb FEATURE GEOMETRY_COLLECTION) with false.
  change (String.eqb FEATURE FEATURE) with true. cbv iota.
  cbn [Py.contains bind]. rewrite lookup_update_same. cbv iota.
  rewrite Hfix. cbn [bind Py.setitem Py.hashable].
  rewrite update_update. reflexivity.
Qed.

(** X24: [parse] is idempotent: a mapping that [parse] has returned is
    parsed to itself. *)
Theorem parse_idempotent (fuel : nat) (x m : value) :
  parse fuel x = Ok m -> parse fuel m = Ok m.
Proof. intros H. exact (proj1 (parse_fixed fuel x m H)). Qed.

(** X25: the missing keys [parse] reports: a mapping without a type, or
    with the type [None], a feature collection or a geometry collection
    whose members are missing or empty, and a feature without the geometry
    key raise the value error that names the key; a value that is no
    mapping raises the attribute error of [get]. *)
Theorem parse_missing_keys (fuel : nat) (d : list (value * value)) :
  (Py.lookup d (VStr TYPE) = None \/ Py.lookup d (VStr TYPE) = Some VNone ->
     parse (S fuel) (VDict d) = Raise (ValueError (Required_key_not_found TYPE))) /\
  (Py.lookup d (VStr TYPE) = Some (VStr FEATURE_COLLECTION) ->
     match Py.lookup d (VStr FEATURES) with
     | Some v => Py.truthy v = false
     | None => True
     end ->
     parse (S fuel) (VDict d)
     = Raise (ValueError (Missing_key_in FEATURES (VStr FEATURE_COLLECTION)))) /\
  (Py.lookup d (VStr TYPE) = Some (VStr GEOMETRY_COLLECTION) ->
     match Py.lookup d (VStr GEOMETRIES) with
     | Some v => Py.truthy v = false
     | None => True
     end ->
     parse (S fuel) (VDict d)
     = Raise (ValueError (Missing_key_in GEOMETRIES (VStr GEOMETRY_COLLECTION)))) /\
  (Py.lookup d (VStr TYPE) = Some (VStr FEATURE) ->
     Py.lookup d (VStr GEOMETRY) = None ->
     parse (S fuel) (VDict d)
     = Raise (ValueError (Missing_key_in GEOMETRY (VStr FEATURE)))) /\
  (forall l, parse (S fuel) (VList l) = Raise (AttributeError "get")) /\
  parse (S fuel) VNone = Raise (AttributeError "get").
Proof.
  repeat split; try reflexivity.
  - intros [H | H]; cbn [parse Py.get bind]; rewrite H; reflexivity.
  - intros Ht Hf. cbn [parse Py.get bind]. rewrite Ht.
    cbn [Py.is_None Py.eq_str].
    change (String.eqb FEATURE_COLLECTION FEATURE_COLLECTION) with true. cbv iota.
    destruct (Py.lookup d (VStr FEATURES)) as [v |]; [rewrite Hf |]; reflexivity.
  - intros Ht Hf. cbn [parse Py.get bind]. rewrite Ht.
    cbn [Py.is_None Py.eq_str].
    change (String.eqb GEOMETRY_COLLECTION FEATURE_COLLECTION) with false.
    change (String.eqb GEOMETRY_COLLECTION GEOMETRY_COLLECTION) with true. cbv iota.
    destruct (Py.lookup d (VStr GEOMETRIES)) as [v |]; [rewrite Hf |]; reflexivity.
  - intros Ht Hg. cbn [parse Py.get bind]. rewrite Ht.
    cbn [Py.is_None Py.eq_str].
    change (String.eqb FEATURE FEATURE_COLLECTION) with false.
    change (String.eqb FEATURE GEOMETRY_COLLECTION) with false.
    change (String.eqb FEATURE FEATURE) with true. cbv iota.
    cbn [Py.contains bind]. rewrite Hg. reflexivity.
Qed.

End GeoMore.

(** ** Instances *)

Section Instances.

Import Bezier Geo Spec.

Example arch_flattening_returns :
  snd (flattening 8 arch (1 # 10) 4) = Returned /\
  List.length (fst (flattening 8 arch (1 # 10) 4)) = 7%nat.
Proof. vm_compute. split; reflexivity. Qed.

Lemma flattening_chords_witness :
  (4 <> 0)%Z /\
  exists l t' v',
    fst (flattening 8 arch (1 # 10) 4) = b1 arch :: l /\
    vec_eq (b1 arch) (_get_curve_point arch 0) /\
    chain arch (1 # 10) 0 (b1 arch) l t' v'.
Proof.
  split; [lia | apply (flattening_chords 8 arch (1 # 10) 4); lia].
Defined.



Lemma join_multi_single_type_witness :
  Forall2 has_tag
    [line_string_mapping [vec2 0 0; vec2 1 0]; line_string_mapping [vec2 0 0; vec2 0 1]]
    [(LINE_STRING, vertices [vec2 0 0; vec2 1 0]);
     (LINE_STRING, vertices [vec2 0 0; vec2 0 1])] /\
  join_multi_single_type_mappings
    [line_string_mapping [vec2 0 0; vec2 1 0]; line_string_mapping [vec2 0 0; vec2 0 1]]
  = Ok (VDict [(VStr TYPE, VStr MULTI_LINE_STRING);
               (VStr COORDINATES,
                VList [vertices [vec2 0 0; vec2 1 0]; vertices [vec2 0 0; vec2 0 1]])]).
Proof.
  assert (H : Forall2 has_tag
    [line_string_mapping [vec2 0 0; vec2 1 0]; line_string_mapping [vec2 0 0; vec2 0 1]]
    [(LINE_STRING, vertices [vec2 0 0; vec2 1 0]);
     (LINE_STRING, vertices [vec2 0 0; vec2 0 1])]).
  { repeat constructor. }
  split; [exact H |].
  apply (proj1 (proj2 (join_multi_single_type _ _ H)) LINE_STRING).
  - discriminate.
  - repeat constructor.
Defined.

End Instances.

(** ** More instances *)

Section MoreInstances.

Import Bezier Geo Spec.

Lemma point_in_box_witness :
  0 <= 1 # 2 /\ 1 # 2 <= 1 /\
  in_box arch_lo arch_hi (b1 arch) /\ in_box arch_lo arch_hi (b2 arch) /\
  in_box arch_lo arch_hi (b3 arch) /\ in_box arch_lo arch_hi (b4 arch) /\
  exists p, Bezier.point arch (1 # 2) = Ok p /\ in_box arch_lo arch_hi p.
Proof.
  assert (H0 : 0 <= 1 # 2) by (unfold Qle; simpl; lia).
  assert (H1 : 1 # 2 <= 1) by (unfold Qle; simpl; lia).
  assert (B1 : in_box arch_lo arch_hi (b1 arch)) by (unfold in_box; simpl; repeat split; unfold Qle; simpl; lia).
  assert (B2 : in_box arch_lo arch_hi (b2 arch)) by (unfold in_box; simpl; repeat split; unfold Qle; simpl; lia).
  assert (B3 : in_box arch_lo arch_hi (b3 arch)) by (unfold in_box; simpl; repeat split; unfold Qle; simpl; lia).
  assert (B4 : in_box arch_lo arch_hi (b4 arch)) by (unfold in_box; simpl; repeat split; unfold Qle; simpl; lia).
  repeat (split; [assumption |]).
  exact (point_in_box arch arch_lo arch_hi (1 # 2) H0 H1 B1 B2 B3 B4).
Defined.

Lemma flattening_needs_distance_witness :
  0 <= 0 /\ (4 <> 0)%Z /\
  forall fuel, flattening fuel arch 0 4 = ([b1 arch], Unfinished).
Proof.
  assert (H0 : 0 <= 0) by (unfold Qle; simpl; lia).
  assert (H4 : (4 <> 0)%Z) by lia.
  split; [assumption |]. split; [assumption |].
  exact (flattening_needs_distance arch 0 4 H0 H4).
Defined.


Lemma gfilter_keeps_mappable_witness :
  Forall well_tagged some_entities /\
  gfilter some_entities = filter dispatched some_entities /\
  Forall (fun e => forall d force m, mapping e d force <> Raise (TypeError m))
         (gfilter some_entities) /\
  (forall e, In e some_entities -> ~ In e (gfilter some_entities) ->
     forall d force, exists m, mapping e d force = Raise (TypeError m)).
Proof.
  assert (H : Forall well_tagged some_entities).
  { unfold some_entities. repeat constructor. }
  split; [assumption |].
  exact (gfilter_keeps_mappable some_entities H).
Defined.

Lemma transform_coordinates_witness :
  Py.lookup two_points (VStr TYPE) = Some (VStr LINE_STRING) /\
  String.eqb LINE_STRING FEATURE_COLLECTION = false /\
  String.eqb LINE_STRING GEOMETRY_COLLECTION = false /\
  String.eqb LINE_STRING FEATURE = false /\
  Py.lookup two_points (VStr COORDINATES)
  = Some (VList [VVec (vec2 0 0); VVec (vec2 1 0)]) /\
  is_coords 1 (VList [VVec (vec2 0 0); VVec (vec2 1 0)]) = true /\
  (1 < 2)%nat /\
  exists d',
    _transform 3 shift (mkGeoProxy (VDict two_points)) = Ok (mkGeoProxy (VDict d')) /\
    Py.lookup d' (VStr COORDINATES)
    = Some (transformed 1 shift (VList [VVec (vec2 0 0); VVec (vec2 1 0)])) /\
    (forall k, String.eqb COORDINATES k = false ->
       Py.lookup d' (VStr k) = Py.lookup two_points (VStr k)) /\
    map fst d' = map fst two_points.
Proof.
  repeat (split; [reflexivity || lia |]).
  apply (transform_coordinates 2 1 shift two_points LINE_STRING
           (VList [VVec (vec2 0 0); VVec (vec2 1 0)]));
    reflexivity || lia.
Defined.

Lemma transform_composes_witness :
  Py.lookup two_points (VStr TYPE) = Some (VStr LINE_STRING) /\
  String.eqb LINE_STRING FEATURE_COLLECTION = false /\
  String.eqb LINE_STRING GEOMETRY_COLLECTION = false /\
  String.eqb LINE_STRING FEATURE = false /\
  Py.lookup two_points (VStr COORDINATES)
  = Some (VList [VVec (vec2 0 0); VVec (vec2 1 0)]) /\
  is_coords 1 (VList [VVec (vec2 0 0); VVec (vec2 1 0)]) = true /\
  (1 < 2)%nat /\
  exists p,
    _transform 3 shift (mkGeoProxy (VDict two_points)) = Ok p /\
    _transform 3 double p
    = _transform 3 (fun u => double (shift u)) (mkGeoProxy (VDict two_points)).
Proof.
  repeat (split; [reflexivity || lia |]).
  apply (transform_composes 2 1 shift double two_points LINE_STRING
           (VList [VVec (vec2 0 0); VVec (vec2 1 0)]));
    reflexivity || lia.
Defined.

Lemma parse_idempotent_witness :
  parse 2 features_null = Ok features_null /\
  parse 2 features_null = Ok features_null.
Proof.
  assert (H : parse 2 features_null = Ok features_null) by reflexivity.
  split; [assumption |].
  exact (parse_idempotent 2 features_null features_null H).
Defined.

End MoreInstances.
